(** * Remote deployment orchestration: mount_shares / deploy

    A shallow embedding of the two registry-backed deployers of the
    repository,

      - [deployers/acr_container_deployer.py]  (the packaged class), and
      - [example.py]                           (the stand-alone script),

    whose [_format_proc_output], [scp_to_cluster_master] (called
    [scp_to_container_master] in the script), [mount_shares] and [deploy]
    methods are line-for-line alike except for the places recorded in
    [variant] below.

    Python [str] values are lists of Unicode code points, [bytes] values are
    lists of [byte].  Calls on the Azure helpers, on files and on
    sub-processes are requests answered by an environment; whatever is
    printed is appended to the same chronological log. *)

From Stdlib Require Import List NArith ZArith Bool Lia String Ascii.
From Stdlib Require Import Init.Byte.
Import ListNotations.

Set Implicit Arguments.

(* ================================================================= *)
(** ** Python strings and bytes *)

Module Py.

(** A [str] is a sequence of code points, a [bytes] a sequence of octets. *)
Definition char := N.
Definition str := list char.
Definition bytes := list byte.

(** String literals of the source, written as Rocq strings. *)
Definition lit (s : string) : str :=
  List.map N_of_ascii (list_ascii_of_string s).

Definition nl : char := 10%N.      (* '\n' *)
Definition slash : char := 47%N.   (* '/'  *)

Local Open Scope N_scope.

(** [s.split(sep)] for a one-character separator: never the empty list. *)
Fixpoint split (sep : char) (s : str) : list str :=
  match s with
  | [] => [[]]
  | c :: s' =>
      if c =? sep then [] :: split sep s'
      else match split sep s' with
           | [] => [[c]]
           | l :: ls => (c :: l) :: ls
           end
  end.

(** [sep.join(parts)]. *)
Fixpoint join (sep : str) (parts : list str) : str :=
  match parts with
  | [] => []
  | [p] => p
  | p :: ps => p ++ sep ++ join sep ps
  end.

(** [xs[-1]]: the last element, [None] standing for IndexError. *)
Fixpoint last_item {A} (xs : list A) : option A :=
  match xs with
  | [] => None
  | [x] => Some x
  | _ :: xs' => last_item xs'
  end.

(** [s.rfind(c)]: highest index of [c] in [s], -1 when absent. *)
Fixpoint rfind_from (c : char) (s : str) (i acc : Z) : Z :=
  match s with
  | [] => acc
  | x :: s' => rfind_from c s' (i + 1)%Z (if x =? c then i else acc)
  end.

Definition rfind (c : char) (s : str) : Z := rfind_from c s 0%Z (-1)%Z.

(** [posixpath.basename]: [i = p.rfind('/') + 1; return p[i:]]. *)
Definition basename (p : str) : str :=
  skipn (Z.to_nat (rfind slash p + 1)) p.

(** [posixpath.join(a, b)] for a relative second component. *)
Definition path_join (a b : str) : str :=
  match last_item a with
  | None => b
  | Some c => if c =? slash then a ++ b else a ++ [slash] ++ b
  end.

(** [s.encode('ascii')]: [None] stands for UnicodeEncodeError. *)
Fixpoint encode_ascii (s : str) : option bytes :=
  match s with
  | [] => Some []
  | c :: s' =>
      if c <? 128 then
        match Byte.of_N c, encode_ascii s' with
        | Some b, Some bs => Some (b :: bs)
        | _, _ => None
        end
      else None
  end.

(** The bytes literal [b'...'] of an ASCII source literal. *)
Definition blit (s : string) : bytes :=
  List.map byte_of_ascii (list_ascii_of_string s).

Definition is_ascii (s : str) : bool := forallb (fun c => c <? 128) s.

(** *** [bytes.decode('utf-8')] with the default strict error handling

    Well-formed sequences are those of the Unicode standard: no overlong
    forms, no surrogates, nothing above U+10FFFF.  [None] stands for
    UnicodeDecodeError. *)

Definition between (lo hi n : N) : bool := (lo <=? n) && (n <=? hi).
Definition cont (n : N) : bool := between 0x80 0xBF n.
Definition low6 (n : N) : N := N.land n 0x3F.

Definition cp2 (b0 b1 : N) : N :=
  N.lor (N.shiftl (N.land b0 0x1F) 6) (low6 b1).
Definition cp3 (b0 b1 b2 : N) : N :=
  N.lor (N.shiftl (N.land b0 0x0F) 12)
        (N.lor (N.shiftl (low6 b1) 6) (low6 b2)).
Definition cp4 (b0 b1 b2 b3 : N) : N :=
  N.lor (N.shiftl (N.land b0 0x07) 18)
        (N.lor (N.shiftl (low6 b1) 12)
               (N.lor (N.shiftl (low6 b2) 6) (low6 b3))).

(** Admissible range of the second octet after lead octet [b0]. *)
Definition second_ok (b0 b1 : N) : bool :=
  if b0 =? 0xE0 then between 0xA0 0xBF b1
  else if b0 =? 0xED then between 0x80 0x9F b1
  else if b0 =? 0xF0 then between 0x90 0xBF b1
  else if b0 =? 0xF4 then between 0x80 0x8F b1
  else cont b1.

Fixpoint decode_utf8 (bs : bytes) : option str :=
  match bs with
  | [] => Some []
  | x0 :: r0 =>
      let b0 := Byte.to_N x0 in
      if b0 <? 0x80 then option_map (cons b0) (decode_utf8 r0)
      else if b0 <? 0xC2 then None
      else if b0 <? 0xE0 then
        match r0 with
        | x1 :: r1 =>
            let b1 := Byte.to_N x1 in
            if cont b1 then option_map (cons (cp2 b0 b1)) (decode_utf8 r1)
            else None
        | _ => None
        end
      else if b0 <? 0xF0 then
        match r0 with
        | x1 :: x2 :: r2 =>
            let b1 := Byte.to_N x1 in
            let b2 := Byte.to_N x2 in
            if second_ok b0 b1 && cont b2
            then option_map (cons (cp3 b0 b1 b2)) (decode_utf8 r2)
            else None
        | _ => None
        end
      else if b0 <? 0xF5 then
        match r0 with
        | x1 :: x2 :: x3 :: r3 =>
            let b1 := Byte.to_N x1 in
            let b2 := Byte.to_N x2 in
            let b3 := Byte.to_N x3 in
            if second_ok b0 b1 && cont b2 && cont b3
            then option_map (cons (cp4 b0 b1 b2 b3)) (decode_utf8 r3)
            else None
        | _ => None
        end
      else None
  end.

End Py.
Import Py.

(** Newlines of a text, line feeds of a buffer. *)
Definition newlines (text : str) : nat := count_occ N.eq_dec text nl.
Definition line_feeds (b : bytes) : nat := count_occ Byte.byte_eq_dec b x0a.

(* ================================================================= *)
(** ** Effects: collaborators, console, exceptions *)

(** The exceptions the two modules can meet. *)
Inductive exn : Type :=
| SystemExit (code : Z)
| CalledProcessError (returncode : Z) (cmd : list str)
| UnicodeEncodeError
| UnicodeDecodeError
| IndexError
| KeyError (key : str)
| ValueError
| OtherError (name : string).

(** Objects handed to a collaborator as an argument. *)
Inductive helper : Type := container_registry.

Inductive file_mode : Type := mode_r | mode_w.

(** Attributes read off the storage and registry helpers. *)
Inductive attr : Type :=
| storage_account_name      (* self.storage.account.name *)
| storage_default_share     (* self.storage.default_share *)
| storage_key               (* self.storage.key *)
| registry_name             (* self.container_registry.name *)
| registry_default_name.    (* self.container_registry.default_name *)

(** Requests to the outside world, indexed by the type of their answer. *)
Inductive call : Type -> Type :=
(* self.container_service *)
| master_ssh_login : call str
| get_key_path : call str
| cluster_ssh_enter : call unit
| cluster_ssh_exit : call unit
| stdin_write (data : bytes) : call unit
| communicate (input : bytes) : call (bytes * bytes)
| deploy_container (private_registry_helper : option helper) : call unit
| deploy_container_from_registry
    (image : str) (registry : option helper) : call unit
(* self.container_registry, self.storage *)
| setup_image (image name : str) : call unit
| get_docker_repo_tag (name : str) : call str
| getattr (a : attr) : call str
(* io *)
| io_open (path : str) (mode : file_mode) (newline : option str) : call unit
| file_read (path : str) : call str
| file_write (path : str) (text : str) : call unit
| file_close (path : str) : call unit
(* subprocess: exit status and captured standard output *)
| spawn (argv : list str) : call (Z * bytes).

(** What a run leaves behind, in chronological order. *)
Inductive event : Type :=
| Printed (text : str)                       (* written to sys.stdout *)
| Traceback (e : exn)                        (* traceback.print_exc() *)
| Called {X : Type} (c : call X) (r : X + exn).

(** The environment answers a request knowing everything that happened
    before; an answer is a value or an exception. *)
Definition env : Type := forall X : Type, list event -> call X -> X + exn.

(** Programs: finite trees of requests. *)
Inductive prog (A : Type) : Type :=
| Ret (a : A)
| Raise (e : exn)
| Emit (ev : event) (k : prog A)
| Call {X : Type} (c : call X) (k : X + exn -> prog A).

Arguments Raise {A} e.

Fixpoint bind {A B} (p : prog A) (f : A -> prog B) : prog B :=
  match p with
  | Ret a => f a
  | Raise e => Raise e
  | Emit ev k => Emit ev (bind k f)
  | Call c k => Call c (fun r => bind (k r) f)
  end.

Declare Scope prog_scope.
Delimit Scope prog_scope with prog.
Notation "x <- p ;; q" := (bind p (fun x => q))
  (at level 100, p at next level, right associativity) : prog_scope.
Notation "p ;; q" := (bind p (fun _ => q))
  (at level 100, right associativity) : prog_scope.
Open Scope prog_scope.

Definition perform {X} (c : call X) : prog X :=
  Call c (fun r => match r with inl x => Ret x | inr e => Raise e end).

(** [try: p except <those e with h e = Some q>: q]. *)
Fixpoint try_except {A} (p : prog A) (h : exn -> option (prog A)) : prog A :=
  match p with
  | Ret a => Ret a
  | Raise e => match h e with Some q => q | None => Raise e end
  | Emit ev k => Emit ev (try_except k h)
  | Call c k => Call c (fun r => try_except (k r) h)
  end.

(** [try: p finally: cleanup]; an exception of [cleanup] wins. *)
Fixpoint finally {A} (p : prog A) (cleanup : prog unit) : prog A :=
  match p with
  | Ret a => cleanup ;; Ret a
  | Raise e => cleanup ;; Raise e
  | Emit ev k => Emit ev (finally k cleanup)
  | Call c k => Call c (fun r => finally (k r) cleanup)
  end.

(** [with enter as x: body x], for context managers that do not swallow
    exceptions (files; the scoped session of the cluster helper). *)
Definition with_ {X A} (enter : prog X) (exit_ : prog unit)
    (body : X -> prog A) : prog A :=
  x <- enter ;; finally (body x) exit_.

(** Running a program against an environment, from history [h]. *)
Fixpoint run {A} (w : env) (h : list event) (p : prog A)
  : list event * (A + exn) :=
  match p with
  | Ret a => (h, inl a)
  | Raise e => (h, inr e)
  | Emit ev k => run w (h ++ [ev]) k
  | Call c k => let r := w _ h c in run w (h ++ [Called c r]) (k r)
  end.

(** [print(a, b, ..., sep=sep, end=end)]. *)
Definition print_ (args : list str) (sep end_ : str) : prog unit :=
  Emit (Printed (join sep args ++ end_)) (Ret tt).

(** [print(a, b, ...)]: separator [' '], terminator ['\n']. *)
Definition print (args : list str) : prog unit := print_ args (lit " ") [nl].

Definition sys_exit {A} (code : Z) : prog A := Raise (SystemExit code).

(** [subprocess.check_output(argv)]. *)
Definition check_output (argv : list str) : prog bytes :=
  r <- perform (spawn argv) ;;
  if (fst r =? 0)%Z then Ret (snd r)
  else Raise (CalledProcessError (fst r) argv).

Definition encode (s : str) : prog bytes :=
  match encode_ascii s with
  | Some b => Ret b
  | None => Raise UnicodeEncodeError
  end.

Definition decode (b : bytes) : prog str :=
  match decode_utf8 b with
  | Some s => Ret s
  | None => Raise UnicodeDecodeError
  end.

(** What reaches the disk of a text file opened for writing with the given
    [newline] argument on a host whose [os.linesep] is [linesep]:
    [None] translates every ['\n'] to [linesep], [''] and ['\n'] translate
    nothing, any other value replaces ['\n']. *)
Definition translate_newlines (newline : option str) (linesep : str)
    (text : str) : str :=
  match newline with
  | None => join linesep (split nl text)
  | Some [] => text
  | Some s => join s (split nl text)
  end.

(* ================================================================= *)
(** ** The deployers *)

Inductive variant : Type :=
| Package        (* deployers/acr_container_deployer.py *)
| Standalone.    (* example.py *)

Section Deployer.

(** Python's [str.format] called with keyword arguments only, taken as a
    function of the template text and of the keyword values: the text, or
    the exception it raises. *)
Variable str_format : str -> list (str * str) -> str + exn.

(** [os.path.dirname(__file__)] of the packaged module. *)
Variable file_dir : str.

Variable v : variant.

(** [self.docker_image]. *)
Variable docker_image : str.

Definition SCRIPTS_DIR : str := path_join file_dir (lit "scripts").

(** The script reads and writes relative to the working directory. *)
Definition script_path (name : string) : str :=
  match v with
  | Package => path_join SCRIPTS_DIR (lit name)
  | Standalone => lit name
  end.

Definition _format_proc_output (header : str) (output : bytes) : prog unit :=
  match output with
  | [] => Ret tt
  | _ :: _ =>
      text <- decode output ;;
      print_ [header;
              join [nl] (List.map (fun line => lit "    " ++ line)
                                  (split nl text))]
             [nl] [nl; nl]
  end.

Definition scp_to_cluster_master (local_path remote_path : str)
  : prog unit :=
  address <- perform master_ssh_login ;;
  try_except
    (check_output [lit "scp"; local_path;
                   address ++ lit ":./" ++ remote_path] ;;
     Ret tt)
    (fun e =>
       match e with
       | CalledProcessError _ _ =>
           Some (Emit (Traceback e) (Ret tt) ;;
                 print [lit "It looks like an scp command failed."] ;;
                 print [lit "Make sure you can ssh into the server without prompts."] ;;
                 print [lit "Please run the following command to try it:"] ;;
                 print [lit "ssh " ++ address] ;;
                 sys_exit 1)
       | _ => None
       end).

(** [template.format(storageacct=..., sharename=..., username=...,
    password=...)]. *)
Definition render (template storageacct sharename username password : str)
  : str + exn :=
  str_format template
    [(lit "storageacct", storageacct); (lit "sharename", sharename);
     (lit "username", username); (lit "password", password)].

(** The [with io.open(...) as cifsMount_template, io.open(..., 'w',
    newline='\n') as cifsMount:] block of [mount_shares]. *)
Definition write_cifsMount : prog unit :=
  let src := script_path "cifsMountTemplate.sh" in
  let dst := script_path "cifsMount.sh" in
  with_ (perform (io_open src mode_r None)) (perform (file_close src))
    (fun _ =>
     with_ (perform (io_open dst mode_w (Some [nl])))
           (perform (file_close dst))
       (fun _ =>
        template <- perform (file_read src) ;;
        storageacct <- perform (getattr storage_account_name) ;;
        sharename <- perform (getattr storage_default_share) ;;
        username <- perform (getattr match v with
                                     | Package => registry_name
                                     | Standalone => registry_default_name
                                     end) ;;
        password <- perform (getattr storage_key) ;;
        match render template storageacct sharename username password with
        | inl text => perform (file_write dst text)
        | inr e => Raise e
        end)).

Definition mount_shares : prog unit :=
  print [lit "Mounting file share on all machines in cluster..."] ;;
  key_path <- perform get_key_path ;;
  let key_file := basename key_path in
  write_cifsMount ;;
  scp_to_cluster_master (script_path "cifsMount.sh") [] ;;
  scp_to_cluster_master (script_path "mountShares.sh") [] ;;
  key_path' <- perform get_key_path ;;
  scp_to_cluster_master key_path' key_file ;;
  oe <- with_ (perform cluster_ssh_enter) (perform cluster_ssh_exit)
          (fun proc =>
             b <- encode (lit "chmod 600 " ++ key_file ++ [nl]) ;;
             perform (stdin_write b) ;;
             perform (stdin_write (blit "eval ssh-agent -s" ++ [x0a])) ;;
             b <- encode (lit "ssh-add " ++ key_file ++ [nl]) ;;
             perform (stdin_write b) ;;
             let mountShares_cmd :=
               lit "sh mountShares.sh ~/" ++ key_file ++ [nl] in
             print_ [lit "Running mountShares on remote master. Cmd:";
                     mountShares_cmd] [nl] [nl] ;;
             b <- encode mountShares_cmd ;;
             perform (stdin_write b) ;;
             perform (communicate (blit "exit" ++ [x0a]))) ;;
  match v with
  | Package => print [lit "Finished mounting shares."]
  | Standalone => Ret tt
  end ;;
  _format_proc_output (lit "Stdout:") (fst oe) ;;
  _format_proc_output (lit "Stderr:") (snd oe).

Definition deploy : prog unit :=
  registry_image_name <-
    match last_item (split slash docker_image) with
    | Some name => Ret name
    | None => Raise IndexError
    end ;;
  perform (setup_image docker_image registry_image_name) ;;
  mount_shares ;;
  match v with
  | Package => perform (deploy_container (Some container_registry))
  | Standalone =>
      tag <- perform (get_docker_repo_tag registry_image_name) ;;
      perform (deploy_container_from_registry tag (Some container_registry))
  end.

(** [ContainerDeployer.deploy] of example.py, the deployer without a
    registry. *)
Definition plain_deploy : prog unit :=
  perform (deploy_container_from_registry docker_image None).

End Deployer.

(* ================================================================= *)
(** ** Reading a log *)

Definition trace_of {A} (w : env) (p : prog A) : list event :=
  fst (run w [] p).

Definition outcome_of {A} (w : env) (p : prog A) : A + exn :=
  snd (run w [] p).

Definition is_session_event (ev : event) : bool :=
  match ev with
  | Called c _ =>
      match c with
      | cluster_ssh_enter | cluster_ssh_exit
      | stdin_write _ | communicate _ => true
      | _ => false
      end
  | _ => false
  end.

(** The dialogue with the scoped session: open, writes, close. *)
Definition session_events (tr : list event) : list event :=
  filter is_session_event tr.

Definition is_session_enter (ev : event) : bool :=
  match ev with
  | Called c _ => match c with cluster_ssh_enter => true | _ => false end
  | _ => false
  end.

(** Was opening the session attempted at all? *)
Definition session_requested (tr : list event) : bool :=
  existsb is_session_enter tr.

(** The data of every [proc.stdin.write]. *)
Definition session_writes (tr : list event) : list bytes :=
  flat_map (fun ev =>
              match ev with
              | Called c _ =>
                  match c with stdin_write d => [d] | _ => [] end
              | _ => []
              end) tr.

(** The key paths the cluster helper answered. *)
Definition key_paths (tr : list event) : list str :=
  flat_map (fun ev =>
              match ev with
              | @Called X c r =>
                  match c in call T return T + exn -> list str with
                  | get_key_path =>
                      fun r => match r with inl p => [p] | inr _ => [] end
                  | _ => fun _ => []
                  end r
              | _ => []
              end) tr.

(** The argument vector of every copy command that was started. *)
Definition transfers (tr : list event) : list (list str) :=
  flat_map (fun ev =>
              match ev with
              | Called c _ => match c with spawn argv => [argv] | _ => [] end
              | _ => []
              end) tr.

(** A copy command that ran and exited with a non-zero status. *)
Definition transfer_failed (ev : event) : bool :=
  match ev with
  | @Called X c r =>
      match c in call T return T + exn -> bool with
      | spawn _ =>
          fun r => match r with
                   | inl p => negb (fst p =? 0)%Z
                   | inr _ => false
                   end
      | _ => fun _ => false
      end r
  | _ => false
  end.

(** The steps from rendering to the opening of the session: key-path
    look-ups, the write of the rendered script, address look-ups, copy
    commands, and the request to open the session. *)
Definition is_transfer_step (ev : event) : bool :=
  match ev with
  | Called c _ =>
      match c with
      | get_key_path | master_ssh_login | spawn _
      | file_write _ _ | cluster_ssh_enter => true
      | _ => false
      end
  | _ => false
  end.

Definition transfer_steps (tr : list event) : list event :=
  filter is_transfer_step tr.

(** Launch invocations on the cluster helper: the image reference passed,
    if any, and the registry helper passed, if any. *)
Definition launches (tr : list event) : list (option str * option helper) :=
  flat_map (fun ev =>
              match ev with
              | Called c _ =>
                  match c with
                  | deploy_container h => [(None, h)]
                  | deploy_container_from_registry image h =>
                      [(Some image, h)]
                  | _ => []
                  end
              | _ => []
              end) tr.

(** Registry staging requests: (image, registry-local name). *)
Definition staged (tr : list event) : list (str * str) :=
  flat_map (fun ev =>
              match ev with
              | Called c _ =>
                  match c with
                  | setup_image image name => [(image, name)]
                  | _ => []
                  end
              | _ => []
              end) tr.

(** Tag look-ups that were answered: (registry-local name, tag). *)
Definition repo_tags (tr : list event) : list (str * str) :=
  flat_map (fun ev =>
              match ev with
              | @Called X c r =>
                  match c in call T return T + exn -> list (str * str) with
                  | get_docker_repo_tag name =>
                      fun r => match r with
                               | inl tag => [(name, tag)]
                               | inr _ => []
                               end
                  | _ => fun _ => []
                  end r
              | _ => []
              end) tr.

(** What the renderer was given: the answers to the template read and to
    the four attribute look-ups, in the order they were asked. *)
Definition inputs (tr : list event) : list (str + exn) :=
  flat_map (fun ev =>
              match ev with
              | @Called X c r =>
                  match c in call T return T + exn -> list (str + exn) with
                  | file_read _ => fun r => [r]
                  | getattr _ => fun r => [r]
                  | _ => fun _ => []
                  end r
              | _ => []
              end) tr.

Definition str_eqb (a b : str) : bool :=
  if list_eq_dec N.eq_dec a b then true else false.

(** The newline argument under which [path] was last opened for writing. *)
Fixpoint newline_of (path : str) (modes : list (str * option str))
  : option str :=
  match modes with
  | [] => None
  | (p, n) :: modes' => if str_eqb p path then n else newline_of path modes'
  end.

(** The texts handed to files, as they reach the disk of a host whose line
    separator is [linesep]: (path, content) for every write request. *)
Fixpoint written (linesep : str) (modes : list (str * option str))
    (tr : list event) : list (str * str) :=
  match tr with
  | [] => []
  | ev :: tr' =>
      match ev with
      | Called c _ =>
          match c with
          | io_open path mode_w newline =>
              written linesep ((path, newline) :: modes) tr'
          | file_write path text =>
              (path, translate_newlines (newline_of path modes) linesep text)
                :: written linesep modes tr'
          | _ => written linesep modes tr'
          end
      | _ => written linesep modes tr'
      end
  end.

(** The addresses the cluster helper answered. *)
Definition logins (tr : list event) : list str :=
  flat_map (fun ev =>
              match ev with
              | @Called X c r =>
                  match c in call T return T + exn -> list str with
                  | master_ssh_login =>
                      fun r => match r with inl a => [a] | inr _ => [] end
                  | _ => fun _ => []
                  end r
              | _ => []
              end) tr.

(** The exit status of the interpreter when the program ends this way and
    nothing above it catches the exception: the code of a SystemExit, 1 for
    any other exception, 0 otherwise. *)
Definition exit_status {A} (r : A + exn) : Z :=
  match r with
  | inl _ => 0
  | inr (SystemExit code) => code
  | inr _ => 1
  end.

(** Everything printed on standard output, in order. *)
Definition printed (tr : list event) : list str :=
  flat_map (fun ev => match ev with Printed t => [t] | _ => [] end) tr.

(* ================================================================= *)
(** ** A formatter and some environments to run the deployers with *)

(** [str.format] restricted to what the mount template uses: literal text,
    doubled braces, and plain [{name}] fields looked up among the keyword
    arguments.  [field] holds the reversed name being read, if any. *)
Fixpoint kw_lookup (k : str) (kw : list (str * str)) : option str :=
  match kw with
  | [] => None
  | (k', x) :: kw' => if str_eqb k' k then Some x else kw_lookup k kw'
  end.

Definition prepend (s : str) (r : str + exn) : str + exn :=
  match r with inl t => inl (s ++ t) | inr e => inr e end.

Fixpoint format_fields (t : str) (field : option str) (kw : list (str * str))
  : str + exn :=
  match t with
  | [] => match field with None => inl [] | Some _ => inr ValueError end
  | c :: t' =>
      match field with
      | Some name =>
          if (c =? 125)%N then
            match name with
            | [] => inr IndexError
            | _ :: _ =>
                match kw_lookup (rev name) kw with
                | Some x => prepend x (format_fields t' None kw)
                | None => inr (KeyError (rev name))
                end
            end
          else format_fields t' (Some (c :: name)) kw
      | None =>
          if (c =? 123)%N then
            match t' with
            | c' :: t'' =>
                if (c' =? 123)%N then prepend [c] (format_fields t'' None kw)
                else format_fields t' (Some []) kw
            | [] => inr ValueError
            end
          else if (c =? 125)%N then
            match t' with
            | c' :: t'' =>
                if (c' =? 125)%N then prepend [c] (format_fields t'' None kw)
                else inr ValueError
            | [] => inr ValueError
            end
          else prepend [c] (format_fields t' None kw)
      end
  end.

Definition simple_format (t : str) (kw : list (str * str)) : str + exn :=
  format_fields t None kw.

(** A world in which every helper answers; the knobs are the key path, the
    exit status of the copy command and the transcript of the session. *)
Definition world (key_path : str) (status : Z) (out err : bytes) : env :=
  fun X _ c =>
    match c in call T return T + exn with
    | master_ssh_login => inl (lit "azureuser@mgmt.example.net")
    | get_key_path => inl key_path
    | cluster_ssh_enter => inl tt
    | cluster_ssh_exit => inl tt
    | stdin_write _ => inl tt
    | communicate _ => inl (out, err)
    | deploy_container _ => inl tt
    | deploy_container_from_registry _ _ => inl tt
    | setup_image _ _ => inl tt
    | get_docker_repo_tag name => inl (lit "reg.example.io/" ++ name)
    | getattr a =>
        inl match a with
            | storage_account_name => lit "acct1"
            | storage_default_share => lit "share1"
            | storage_key => lit "pw1"
            | registry_name | registry_default_name => lit "user1"
            end
    | io_open _ _ _ => inl tt
    | file_read _ =>
        inl (lit "mount -t cifs //{storageacct}.file.core.windows.net/{sharename} /mnt/share -o username={username},password={password}" ++ [nl])
    | file_write _ _ => inl tt
    | file_close _ => inl tt
    | spawn _ => inl (status, [])
    end.

Definition id_rsa : str := lit "/home/dev/.ssh/id_rsa".

(** The same path with an accented directory and file name. *)
Definition id_cle : str := lit "/home/dev/.ssh/cl" ++ [233%N] ++ lit "_rsa".

Definition sample_image : str := lit "mesosphere/simple-docker".
Definition sample_dir : str := lit "/srv/sample/deployers".

(** The file the renderer leaves behind, as a function of what it was
    given: nothing unless the template and the four values were all
    obtained and the substitution succeeded. *)
Definition rendered_files
    (str_format : str -> list (str * str) -> str + exn)
    (file_dir : str) (v : variant) (given : list (str + exn))
  : list (str * str) :=
  match given with
  | [inl template; inl storageacct; inl sharename; inl username;
     inl password] =>
      match render str_format template storageacct sharename username
                   password with
      | inl text => [(script_path file_dir v "cifsMount.sh", text)]
      | inr _ => []
      end
  | _ => []
  end.

Definition calm : env := world id_rsa 0 (blit "mounted" ++ [x0a]) [].
Definition refused : env := world id_rsa 1 [] [].
Definition accented : env := world id_cle 0 [] [].

(* ================================================================= *)
(** ** The script around the deployers (example.py) *)

Definition DEFAULT_DOCKER_IMAGE : str := lit "mesosphere/simple-docker".

(** The credentials object, known by the values it was built from. *)
Record principal : Type :=
  ServicePrincipal { client_id : str; secret : str; tenant : str }.

(** [ClientArgs = namedtuple('ClientArgs',
    ['credentials', 'subscription_id'])]. *)
Record ClientArgs : Type :=
  { credentials : principal; subscription_id : str }.

(** An item of [list_resources()]: its [.name] and its [.id]. *)
Record resource : Type := { item_name : str; item_id : str }.

(** [args.deployer]: the class chosen on the command line. *)
Inductive deployer_class : Type := ContainerDeployer | ACRContainerDeployer.

(** The requests of the script beyond those of the deployers. *)
Inductive ask : Type -> Type :=
| ServicePrincipalCredentials (c : principal) : ask unit
| ResourceHelper (client_data : ClientArgs) (location : str)
                 (resource_group : option str) : ask unit
| providers_register (namespace : str) : ask unit
| ContainerHelper (client_data : ClientArgs) : ask unit
| StorageHelper (client_data : ClientArgs) (account : option str) : ask unit
| ContainerRegistryHelper (client_data : ClientArgs)
                          (registry : option str) : ask unit
| list_resources : ask (list resource)
(* get_by_id(id).properties *)
| get_by_id (id : str) : ask (list (str * str))
(* requests.get(url).text *)
| requests_get (url : str) : ask str.

(** The log of the script: what the deployers log, and its own requests. *)
Inductive sevent : Type :=
| Core (ev : event)
| Asked {X : Type} (q : ask X) (r : X + exn).

Definition senv : Type :=
  forall X : Type, list sevent -> call X + ask X -> X + exn.

Inductive script (A : Type) : Type :=
| SRet (a : A)
| SRaise (e : exn)
| SEmit (ev : event) (k : script A)
| SDo {X : Type} (c : call X + ask X) (k : X + exn -> script A).

Arguments SRaise {A} e.

Fixpoint sbind {A B} (p : script A) (f : A -> script B) : script B :=
  match p with
  | SRet a => f a
  | SRaise e => SRaise e
  | SEmit ev k => SEmit ev (sbind k f)
  | SDo c k => SDo c (fun r => sbind (k r) f)
  end.

Declare Scope script_scope.
Delimit Scope script_scope with script.
Notation "x <- p ;; q" := (sbind p (fun x => q))
  (at level 100, p at next level, right associativity) : script_scope.
Notation "p ;; q" := (sbind p (fun _ => q))
  (at level 100, right associativity) : script_scope.

Definition request {X} (q : ask X) : script X :=
  SDo (inr q) (fun r => match r with inl x => SRet x | inr e => SRaise e end).

(** A method of a deployer, run inside the script. *)
Fixpoint lift {A} (p : prog A) : script A :=
  match p with
  | Ret a => SRet a
  | Raise e => SRaise e
  | Emit ev k => SEmit ev (lift k)
  | Call c k => SDo (inl c) (fun r => lift (k r))
  end.

Fixpoint srun {A} (w : senv) (h : list sevent) (p : script A)
  : list sevent * (A + exn) :=
  match p with
  | SRet a => (h, inl a)
  | SRaise e => (h, inr e)
  | SEmit ev k => srun w (h ++ [Core ev]) k
  | SDo c k =>
      let r := w _ h c in
      srun w (h ++ [match c with
                    | inl c' => Core (Called c' r)
                    | inr q => Asked q r
                    end]) (k r)
  end.

Definition strace_of {A} (w : senv) (p : script A) : list sevent :=
  fst (srun w [] p).

Definition soutcome_of {A} (w : senv) (p : script A) : A + exn :=
  snd (srun w [] p).

(** The part of a log that the deployers wrote. *)
Definition core_events (tr : list sevent) : list event :=
  flat_map (fun ev => match ev with Core e => [e] | Asked _ _ => [] end) tr.

(** What a deployer sees of the world when it starts after [h]. *)
Definition core_env (w : senv) (h : list sevent) : env :=
  fun X hc c => w X (h ++ List.map Core hc) (inl c).

(** [needle in s], for strings. *)
Fixpoint starts_with (needle s : str) : bool :=
  match needle, s with
  | [], _ => true
  | _ :: _, [] => false
  | c :: needle', d :: s' => (c =? d)%N && starts_with needle' s'
  end.

Fixpoint contains (needle s : str) : bool :=
  starts_with needle s ||
  match s with
  | [] => false
  | _ :: s' => contains needle s'
  end.

(** [s.lower()] on the letters A to Z; the script takes the full
    [str.lower] as a parameter, see [lower] below. *)
Definition ascii_lower (s : str) : str :=
  List.map (fun c => if ((65 <=? c) && (c <=? 90))%N then (c + 32)%N else c) s.

Section Script.

Variable str_format : str -> list (str * str) -> str + exn.

(** Python's [str.lower], a function from strings to strings. *)
Variable lower : str -> str.

(** [os.environ], as the list of its items. *)
Variable environ : list (str * str).

Local Open Scope script_scope.

(** [os.environ[key]]. *)
Definition environ_get (key : string) : script str :=
  match kw_lookup (lit key) environ with
  | Some value => SRet value
  | None => SRaise (KeyError (lit key))
  end.

Definition is_agent_ip (item : resource) : bool :=
  contains (lit "agent-ip") (lower (item_name item)).

(** The [for] loop of [public_ip]; falling off its end returns [None]. *)
Fixpoint public_ip_items (items : list resource) : script (option str) :=
  match items with
  | [] => SRet None
  | item :: items' =>
      if is_agent_ip item then
        properties <- request (get_by_id (item_id item)) ;;
        match kw_lookup (lit "ipAddress") properties with
        | Some address => SRet (Some address)
        | None => SRaise (KeyError (lit "ipAddress"))
        end
      else public_ip_items items'
  end.

Definition public_ip : script (option str) :=
  items <- request list_resources ;;
  public_ip_items items.

(** [ContainerDeployer.__init__], with the defaults [main] leaves in
    place: location ['South Central US'], no resource group. *)
Definition ContainerDeployer_init (client_data : ClientArgs) : script unit :=
  request (ResourceHelper client_data (lit "South Central US") None) ;;
  request (providers_register (lit "Microsoft.ContainerRegistry")) ;;
  request (providers_register (lit "Microsoft.ContainerService")) ;;
  request (ContainerHelper client_data).

(** [ACRContainerDeployer.__init__], same defaults, no storage account
    and no registry name given. *)
Definition ACRContainerDeployer_init (client_data : ClientArgs)
  : script unit :=
  ContainerDeployer_init client_data ;;
  request (StorageHelper client_data None) ;;
  request (ContainerRegistryHelper client_data None).

(** ['http://{}'.format(x)] for [x] a string or [None]. *)
Definition url_of (address : option str) : str :=
  lit "http://" ++ match address with
                   | Some a => a
                   | None => lit "None"
                   end.

(** [main], from the parsed arguments on. *)
Definition main (args_deployer : deployer_class) (args_image : str)
  : script unit :=
  id <- environ_get "AZURE_CLIENT_ID" ;;
  sec <- environ_get "AZURE_CLIENT_SECRET" ;;
  ten <- environ_get "AZURE_TENANT_ID" ;;
  let creds := ServicePrincipal id sec ten in
  request (ServicePrincipalCredentials creds) ;;
  subscription <- environ_get "AZURE_SUBSCRIPTION_ID" ;;
  let client_data :=
    {| credentials := creds; subscription_id := subscription |} in
  match args_deployer with
  | ContainerDeployer =>
      ContainerDeployer_init client_data ;;
      lift (plain_deploy args_image)
  | ACRContainerDeployer =>
      ACRContainerDeployer_init client_data ;;
      lift (deploy str_format [] Standalone args_image)
  end ;;
  address <- public_ip ;;
  text <- request (requests_get (url_of address)) ;;
  SEmit (Printed (text ++ [nl])) (SRet tt).

End Script.

(** Reading the script's part of a log. *)
Definition fetched (tr : list sevent) : list str :=
  flat_map (fun ev =>
              match ev with
              | Asked q _ => match q with requests_get url => [url] | _ => [] end
              | _ => []
              end) tr.

Definition looked_up (tr : list sevent) : list str :=
  flat_map (fun ev =>
              match ev with
              | Asked q _ => match q with get_by_id id => [id] | _ => [] end
              | _ => []
              end) tr.

Definition listings (tr : list sevent) : nat :=
  List.length
    (filter (fun ev =>
               match ev with
               | Asked q _ => match q with list_resources => true | _ => false end
               | _ => false
               end) tr).

(** The helpers built and the providers registered, in order. *)
Definition is_setup (ev : sevent) : bool :=
  match ev with
  | Asked q _ =>
      match q with
      | ResourceHelper _ _ _ | providers_register _ | ContainerHelper _
      | StorageHelper _ _ | ContainerRegistryHelper _ _ => true
      | _ => false
      end
  | _ => false
  end.

(** An Azure in which every request of the script is answered: the
    deployers' requests by [w], the listing by [items], every look-up by
    [properties]. *)
Definition azure (w : env) (items : list resource)
    (properties : list (str * str)) : senv :=
  fun X h c =>
    match c with
    | inl c' => w X (core_events h) c'
    | inr q =>
        match q in ask T return T + exn with
        | ServicePrincipalCredentials _ => inl tt
        | ResourceHelper _ _ _ => inl tt
        | providers_register _ => inl tt
        | ContainerHelper _ => inl tt
        | StorageHelper _ _ => inl tt
        | ContainerRegistryHelper _ _ => inl tt
        | list_resources => inl items
        | get_by_id _ => inl properties
        | requests_get _ => inl (lit "<h1>It works</h1>")
        end
    end.

Definition sample_environ : list (str * str) :=
  [(lit "AZURE_CLIENT_ID", lit "client-0001");
   (lit "AZURE_CLIENT_SECRET", lit "s3cret");
   (lit "AZURE_TENANT_ID", lit "tenant-0001");
   (lit "AZURE_SUBSCRIPTION_ID", lit "sub-0001")].

Definition sample_items : list resource :=
  [{| item_name := lit "containersample-vnet"; item_id := lit "/r/vnet" |};
   {| item_name := lit "dcos-Agent-IP-1234"; item_id := lit "/r/agent" |};
   {| item_name := lit "dcos-agent-ip-5678"; item_id := lit "/r/other" |}].

Definition sample_properties : list (str * str) :=
  [(lit "provisioningState", lit "Succeeded");
   (lit "ipAddress", lit "52.0.0.7")].

(** Further readings of a deployer's log. *)

Definition is_session_io (ev : event) : bool :=
  match ev with
  | Called c _ =>
      match c with stdin_write _ | communicate _ => true | _ => false end
  | _ => false
  end.

Definition is_file_event (ev : event) : bool :=
  match ev with
  | Called c _ =>
      match c with
      | io_open _ _ _ | file_read _ | file_write _ _ | file_close _ => true
      | _ => false
      end
  | _ => false
  end.

(** Opens, reads, writes and closes of files, in order. *)
Definition file_events (tr : list event) : list event :=
  filter is_file_event tr.

Definition is_open_or_close (ev : event) : bool :=
  match ev with
  | Called c _ =>
      match c with io_open _ _ _ | file_close _ => true | _ => false end
  | _ => false
  end.

(** The transcripts [communicate] returned. *)
Definition transcripts (tr : list event) : list (bytes * bytes) :=
  flat_map (fun ev =>
              match ev with
              | @Called X c r =>
                  match c in call T return T + exn -> list (bytes * bytes)
                  with
                  | communicate _ =>
                      fun r => match r with inl t => [t] | inr _ => [] end
                  | _ => fun _ => []
                  end r
              | _ => []
              end) tr.

(** Did leaving the session's [with] block go through? *)
Definition session_closed (tr : list event) : bool :=
  existsb (fun ev =>
             match ev with
             | @Called X c r =>
                 match c in call T return T + exn -> bool with
                 | cluster_ssh_exit =>
                     fun r => match r with inl _ => true | inr _ => false end
                 | _ => fun _ => false
                 end r
             | _ => false
             end) tr.

(** The registry-local names a tag was asked for. *)
Definition tag_requests (tr : list event) : list str :=
  flat_map (fun ev =>
              match ev with
              | Called c _ =>
                  match c with get_docker_repo_tag name => [name] | _ => [] end
              | _ => []
              end) tr.


(** What the formatter prints for a printable buffer. *)
Definition report (header : str) (b : bytes) : list str :=
  match b with
  | [] => []
  | _ :: _ =>
      match decode_utf8 b with
      | Some text =>
          [header ++ [nl] ++
           join [nl] (List.map (fun line => lit "    " ++ line)
                               (split nl text)) ++ [nl; nl]]
      | None => []
      end
  end.


(** The listings answered, the properties looked up, the pages fetched. *)
Definition listed (tr : list sevent) : list (list resource) :=
  flat_map (fun ev =>
              match ev with
              | @Asked X q r =>
                  match q in ask T return T + exn -> list (list resource)
                  with
                  | list_resources =>
                      fun r => match r with inl l => [l] | inr _ => [] end
                  | _ => fun _ => []
                  end r
              | _ => []
              end) tr.

Definition properties_seen (tr : list sevent)
  : list (str * list (str * str)) :=
  flat_map (fun ev =>
              match ev with
              | @Asked X q r =>
                  match q in ask T
                        return T + exn -> list (str * list (str * str))
                  with
                  | get_by_id id =>
                      fun r => match r with
                               | inl p => [(id, p)]
                               | inr _ => []
                               end
                  | _ => fun _ => []
                  end r
              | _ => []
              end) tr.

Definition responses (tr : list sevent) : list str :=
  flat_map (fun ev =>
              match ev with
              | @Asked X q r =>
                  match q in ask T return T + exn -> list str with
                  | requests_get _ =>
                      fun r => match r with inl t => [t] | inr _ => [] end
                  | _ => fun _ => []
                  end r
              | _ => []
              end) tr.



Definition is_registry_setup (ev : sevent) : bool :=
  match ev with
  | Asked q _ =>
      match q with
      | StorageHelper _ _ | ContainerRegistryHelper _ _ => true
      | _ => false
      end
  | _ => false
  end.


(** [w], except that reading a file answers [template]. *)
Definition with_template (template : str) (w : env) : env :=
  fun X h c =>
    match c in call T return T + exn -> T + exn with
    | file_read _ => fun _ => inl template
    | _ => fun answer => answer
    end (w X h c).

(** [w], except that no [scp] program is found. *)
Definition without_scp (w : env) : env :=
  fun X h c =>
    match c in call T return T + exn -> T + exn with
    | spawn _ => fun _ => inr (OtherError "FileNotFoundError")
    | _ => fun answer => answer
    end (w X h c).

Definition denied : bytes :=
  blit "mount error(13): Permission denied" ++ [x0a].

(** Sample runs. *)
Definition sample_deploy (v : variant) : prog unit :=
  deploy simple_format sample_dir v sample_image.

Definition sample_main (environ : list (str * str)) (cls : deployer_class)
  : script unit :=
  main simple_format ascii_lower environ cls sample_image.

Definition sample_azure (w : env) : senv :=
  azure w sample_items sample_properties.


Definition vnet_only : list resource :=
  [{| item_name := lit "containersample-vnet"; item_id := lit "/r/vnet" |}].

(** A template with a field the renderer is not given. *)
Definition stray_field : env :=
  with_template (lit "{sharename} {mountpoint}") calm.

(** The session went through but the mount was refused on the agents. *)
Definition unmounted : env := world id_rsa 0 [] denied.


(* ================================================================= *)
(** ** The console *)

(** [sys.stdout] as [print] sees it: whether [sys.stdout.write(chunk)]
    goes through, that is whether the encoding of the console, with its
    error handler, can encode [chunk].  When it cannot, the write raises
    UnicodeEncodeError. *)
Definition console : Type := str -> bool.

(** A console that takes every text (an error handler such as [replace]
    or [backslashreplace]). *)
Definition wide : console := fun _ => true.

(** A strict ASCII console ([LANG=C]). *)
Definition ascii_stdout : console := is_ascii.

(** A strict UTF-8 console: everything but lone surrogates. *)
Definition is_surrogate (c : char) : bool := between 0xD800 0xDFFF c.

Definition utf8_stdout : console :=
  forallb (fun c => negb (is_surrogate c)).

(** The deployers again, with the console they print to made explicit.
    The definitions of the same name above are these on a console that
    takes every text. *)
Module Console.

(** The writes of [print(a, b, ..., sep=sep, end=end)], in order: each
    argument, [sep] between two arguments, [end] last. *)
Definition chunks (args : list str) (sep end_ : str) : list str :=
  match args with
  | [] => [end_]
  | a :: rest => a :: flat_map (fun b => [sep; b]) rest ++ [end_]
  end.

(** The writes that went through before the first one refused. *)
Fixpoint written (stdout : console) (cs : list str) : list str :=
  match cs with
  | [] => []
  | c :: cs' => if stdout c then c :: written stdout cs' else []
  end.

(** [print(a, b, ..., sep=sep, end=end)]: the first write the console
    cannot encode raises, after the writes before it. *)
Definition print_ (stdout : console) (args : list str) (sep end_ : str)
  : prog unit :=
  if forallb stdout (chunks args sep end_)
  then Emit (Printed (join sep args ++ end_)) (Ret tt)
  else match written stdout (chunks args sep end_) with
       | [] => Raise UnicodeEncodeError
       | done => Emit (Printed (List.concat done)) (Raise UnicodeEncodeError)
       end.

Definition print (stdout : console) (args : list str) : prog unit :=
  print_ stdout args (lit " ") [nl].

Section Deployer.

Variable stdout : console.
Variable str_format : str -> list (str * str) -> str + exn.
Variable file_dir : str.
Variable v : variant.
Variable docker_image : str.

(** The text [_format_proc_output] hands to [print] after the header. *)
Definition indented (text : str) : str :=
  join [nl] (List.map (fun line => lit "    " ++ line) (split nl text)).

Definition _format_proc_output (header : str) (output : bytes) : prog unit :=
  match output with
  | [] => Ret tt
  | _ :: _ =>
      text <- decode output ;;
      print_ stdout [header; indented text] [nl] [nl; nl]
  end.

Definition scp_to_cluster_master (local_path remote_path : str)
  : prog unit :=
  address <- perform master_ssh_login ;;
  try_except
    (check_output [lit "scp"; local_path;
                   address ++ lit ":./" ++ remote_path] ;;
     Ret tt)
    (fun e =>
       match e with
       | CalledProcessError _ _ =>
           Some (Emit (Traceback e) (Ret tt) ;;
                 print stdout [lit "It looks like an scp command failed."] ;;
                 print stdout [lit "Make sure you can ssh into the server without prompts."] ;;
                 print stdout [lit "Please run the following command to try it:"] ;;
                 print stdout [lit "ssh " ++ address] ;;
                 sys_exit 1)
       | _ => None
       end).

Definition mount_shares : prog unit :=
  print stdout [lit "Mounting file share on all machines in cluster..."] ;;
  key_path <- perform get_key_path ;;
  let key_file := basename key_path in
  write_cifsMount str_format file_dir v ;;
  scp_to_cluster_master (script_path file_dir v "cifsMount.sh") [] ;;
  scp_to_cluster_master (script_path file_dir v "mountShares.sh") [] ;;
  key_path' <- perform get_key_path ;;
  scp_to_cluster_master key_path' key_file ;;
  oe <- with_ (perform cluster_ssh_enter) (perform cluster_ssh_exit)
          (fun proc =>
             b <- encode (lit "chmod 600 " ++ key_file ++ [nl]) ;;
             perform (stdin_write b) ;;
             perform (stdin_write (blit "eval ssh-agent -s" ++ [x0a])) ;;
             b <- encode (lit "ssh-add " ++ key_file ++ [nl]) ;;
             perform (stdin_write b) ;;
             let mountShares_cmd :=
               lit "sh mountShares.sh ~/" ++ key_file ++ [nl] in
             print_ stdout [lit "Running mountShares on remote master. Cmd:";
                            mountShares_cmd] [nl] [nl] ;;
             b <- encode mountShares_cmd ;;
             perform (stdin_write b) ;;
             perform (communicate (blit "exit" ++ [x0a]))) ;;
  match v with
  | Package => print stdout [lit "Finished mounting shares."]
  | Standalone => Ret tt
  end ;;
  _format_proc_output (lit "Stdout:") (fst oe) ;;
  _format_proc_output (lit "Stderr:") (snd oe).

Definition deploy : prog unit :=
  registry_image_name <-
    match last_item (split slash docker_image) with
    | Some name => Ret name
    | None => Raise IndexError
    end ;;
  perform (setup_image docker_image registry_image_name) ;;
  mount_shares ;;
  match v with
  | Package => perform (deploy_container (Some container_registry))
  | Standalone =>
      tag <- perform (get_docker_repo_tag registry_image_name) ;;
      perform (deploy_container_from_registry tag (Some container_registry))
  end.

End Deployer.

End Console.

(** Whether the console takes the report of a buffer: nothing is asked
    of it for an empty buffer; otherwise the buffer has to be UTF-8 and
    the console has to take the four writes of the report. *)
Definition reportable (stdout : console) (header : str) (b : bytes) : bool :=
  match b with
  | [] => true
  | _ :: _ =>
      match decode_utf8 b with
      | Some text =>
          forallb stdout [header; [nl]; Console.indented text; [nl; nl]]
      | None => false
      end
  end.

(** Symbolic execution: find the test on which the program waits. *)
Ltac waiting_on p :=
  lazymatch p with
  | bind ?q _ => waiting_on q
  | try_except ?q _ => waiting_on q
  | finally ?q _ => waiting_on q
  | match ?s with inl _ => _ | inr _ => _ end => waiting_on s
  | match ?s with Some _ => _ | None => _ end => waiting_on s
  | if ?s then _ else _ => waiting_on s
  | match ?s with nil => _ | cons _ _ => _ end => waiting_on s
  | match ?s with Package => _ | Standalone => _ end => waiting_on s
  | match ?s with CalledProcessError _ _ => _ | _ => _ end => waiting_on s
  | _ => p
  end.

Ltac is_answer s :=
  lazymatch s with
  | ?f ?X ?h ?c => lazymatch type of c with call _ => idtac end
  end.

(** One step: split on the answer of the environment, or on the test. *)
Ltac exec1 :=
  cbn;
  lazymatch goal with
  | |- run _ _ ?p = _ -> _ =>
      let s := waiting_on p in
      tryif is_answer s
      then (let x := fresh "x" in
            destruct s as [x|?];
            [try (match type of x with unit => destruct x end)|])
      else (let E := fresh "E" in destruct s eqn:E)
  end.

Ltac exec := repeat exec1; cbn.

(** Start from a statement about [trace_of] and [outcome_of] of a run of
    [deploy]: one goal per way the run can go. *)
Ltac run_all :=
  unfold trace_of, outcome_of;
  match goal with
  | |- context [run ?w [] ?p] =>
      let tr := fresh "tr" in
      let res := fresh "res" in
      let H := fresh "H" in
      destruct (run w [] p) as [tr res] eqn:H; revert H
  end;
  unfold deploy; exec;
  let H := fresh "H" in
  intros H; apply pair_equal_spec in H; destruct H as [<- <-];
  unfold fst, snd.

(** Copy commands that exited with status 0 did not fail. *)
Ltac passed H :=
  cbn in H;
  repeat match goal with
         | E : (_ =? _)%Z = true |- _ => progress rewrite E in H
         end;
  cbn in H.

Ltac passed_goal :=
  cbn;
  repeat match goal with
         | E : (_ =? _)%Z = true |- _ => progress rewrite E
         end;
  cbn.

Ltac split_pairs :=
  repeat match goal with
         | p : (Z * bytes)%type |- _ => destruct p
         | p : (bytes * bytes)%type |- _ => destruct p
         end;
  unfold fst, snd in *.

(* ================================================================= *)
(** ** Facts about strings *)

Example split_keeps_trailing_piece :
  split nl (lit "a" ++ [nl] ++ lit "b" ++ [nl]) = [lit "a"; lit "b"; []].
Proof. reflexivity. Qed.

Example last_segment_of_sample_image :
  last_item (split slash sample_image) = Some (lit "simple-docker").
Proof. reflexivity. Qed.

Example basename_of_id_rsa : basename id_rsa = lit "id_rsa".
Proof. reflexivity. Qed.

Example basename_after_trailing_slash : basename (lit "keys/") = [].
Proof. reflexivity. Qed.

Example scripts_dir_of_sample :
  SCRIPTS_DIR sample_dir = lit "/srv/sample/deployers/scripts".
Proof. reflexivity. Qed.

Example decode_mixed_widths :
  decode_utf8 [x68; xc3; xa9; xe2; x82; xac; xf0; x9f; x98; x80]
  = Some [104; 233; 8364; 128512]%N.
Proof. reflexivity. Qed.

Example decode_rejects_overlong_surrogate_truncated :
  decode_utf8 [xc0; x80] = None /\
  decode_utf8 [xed; xa0; x80] = None /\
  decode_utf8 [xe2; x82] = None /\
  decode_utf8 [xf4; x90; x80; x80] = None.
Proof. repeat split. Qed.

Example encode_rejects_e_acute : encode_ascii (basename id_cle) = None.
Proof. reflexivity. Qed.

(** The four values substituted verbatim, nothing else altered. *)
Example render_sample :
  render simple_format
    (lit "mount //{storageacct}/{sharename} -o {username},{password}" ++ [nl])
    (lit "acct1") (lit "share1") (lit "user1") (lit "pw1")
  = inl (lit "mount //acct1/share1 -o user1,pw1" ++ [nl]).
Proof. reflexivity. Qed.

Example render_unknown_field :
  render simple_format (lit "{sharename} {mountpoint}")
    (lit "acct1") (lit "share1") (lit "user1") (lit "pw1")
  = inr (KeyError (lit "mountpoint")).
Proof. reflexivity. Qed.

(** On a host that writes CRLF, only [newline='\n'] keeps the text. *)
Example translate_newlines_on_crlf_host :
  translate_newlines None [13; 10]%N (lit "a" ++ [nl] ++ lit "b")
    = lit "a" ++ [13; 10]%N ++ lit "b" /\
  translate_newlines (Some [nl]) [13; 10]%N (lit "a" ++ [nl] ++ lit "b")
    = lit "a" ++ [nl] ++ lit "b".
Proof. split; reflexivity. Qed.

Section StringFacts.

Variable sep : char.

Lemma split_shape (s : str) : exists l ls, split sep s = l :: ls.
Proof.
  induction s as [|c s [l [ls IH]]]; simpl.
  - now exists [], [].
  - destruct (c =? sep)%N.
    + now exists [], (split sep s).
    + rewrite IH. now exists (c :: l), ls.
Qed.

Lemma split_not_nil (s : str) : split sep s <> [].
Proof. destruct (split_shape s) as [l [ls E]]. now rewrite E. Qed.

Lemma join_cons (t p : str) (ps : list str) :
  ps <> [] -> join t (p :: ps) = p ++ t ++ join t ps.
Proof. destruct ps; [contradiction|reflexivity]. Qed.

(** Joining what was split gives the text back. *)
Lemma join_split (s : str) : join [sep] (split sep s) = s.
Proof.
  induction s as [|c s IH]; simpl; [reflexivity|].
  destruct (N.eqb_spec c sep) as [->|Hne].
  - rewrite join_cons by apply split_not_nil. now rewrite IH.
  - destruct (split_shape s) as [l [ls E]].
    rewrite E in *. destruct ls; simpl in *; now rewrite <- IH.
Qed.

(** No piece contains the separator. *)
Lemma split_pieces (s : str) :
  Forall (fun piece => ~ In sep piece) (split sep s).
Proof.
  induction s as [|c s IH]; simpl.
  - constructor; [intros []|constructor].
  - destruct (N.eqb_spec c sep) as [->|Hne].
    + constructor; [intros []|exact IH].
    + destruct (split_shape s) as [l [ls E]]. rewrite E in *.
      inversion IH as [|? ? Hl Hls]; subst.
      constructor; [|exact Hls].
      intros [->|Hin]; [now apply Hne|now apply Hl].
Qed.

Lemma split_free (s : str) : ~ In sep s -> split sep s = [s].
Proof.
  induction s as [|c s IH]; simpl; intros Hn; [reflexivity|].
  destruct (N.eqb_spec c sep) as [->|Hne].
  - exfalso. apply Hn. now left.
  - rewrite IH; [reflexivity|]. intros Hin. apply Hn. now right.
Qed.


Lemma last_item_split (s : str) :
  exists name,
    last_item (split sep s) = Some name /\
    ~ In sep name /\
    (s = name \/ exists pre, s = pre ++ sep :: name).
Proof.
  induction s as [|c s (name & Hlast & Hfree & Hs)]; simpl.
  - exists []. split; [reflexivity|]. split; [intros []|now left].
  - destruct (N.eqb_spec c sep) as [->|Hne].
    + exists name.
      destruct (split_shape s) as [l [ls E]]. rewrite E in *.
      split; [exact Hlast|]. split; [exact Hfree|]. right.
      destruct Hs as [->|[pre ->]].
      * now exists [].
      * now exists (sep :: pre).
    + destruct (split_shape s) as [l [ls E]]. rewrite E in *.
      destruct ls as [|l' ls].
      * injection Hlast as ->. exists (c :: name).
        split; [reflexivity|].
        destruct Hs as [->|[pre ->]].
        -- split; [|now left]. intros [->|Hin]; [now apply Hne|now apply Hfree].
        -- exfalso.
           pose proof (split_pieces (pre ++ sep :: name)) as Hp.
           rewrite E in Hp. inversion Hp as [|? ? Hl _]; subst.
           pose proof (join_split (pre ++ sep :: name)) as Hj.
           rewrite E in Hj. simpl in Hj. apply Hl. rewrite Hj.
           apply in_or_app. right. now left.
      * exists name. split; [exact Hlast|]. split; [exact Hfree|]. right.
        destruct Hs as [->|[pre ->]].
        -- exfalso.
           rewrite split_free in E by exact Hfree. discriminate.
        -- now exists (c :: pre).
Qed.

End StringFacts.

(** Terminating every mapped line is the same as joining the mapped lines
    and terminating the whole. *)
Lemma join_terminated (t : str) (f : str -> str) (ls : list str) :
  ls <> [] ->
  join t (List.map f ls) ++ t = List.concat (List.map (fun l => f l ++ t) ls).
Proof.
  induction ls as [|l ls IH]; intros Hne; [contradiction|].
  destruct ls as [|l' ls].
  - simpl. now rewrite app_nil_r.
  - change (join t (List.map f (l :: l' :: ls)))
      with (f l ++ t ++ join t (List.map f (l' :: ls))).
    change (List.concat (List.map (fun l0 => f l0 ++ t) (l :: l' :: ls)))
      with ((f l ++ t) ++
            List.concat (List.map (fun l0 => f l0 ++ t) (l' :: ls))).
    rewrite <- IH by discriminate.
    now rewrite <- !app_assoc.
Qed.

Lemma str_eqb_refl (a : str) : str_eqb a a = true.
Proof. unfold str_eqb. now destruct (list_eq_dec N.eq_dec a a). Qed.

(** Opening with [newline='\n'] leaves the text alone on every host. *)
Lemma translate_newlines_lf (linesep text : str) :
  translate_newlines (Some [nl]) linesep text = text.
Proof. unfold translate_newlines. apply join_split. Qed.

Lemma encode_ascii_app (a b : str) :
  encode_ascii (a ++ b) =
  match encode_ascii a, encode_ascii b with
  | Some x, Some y => Some (x ++ y)
  | _, _ => None
  end.
Proof.
  induction a as [|c a IH]; simpl.
  - now destruct (encode_ascii b).
  - destruct (c <? 128)%N; [|reflexivity].
    destruct (Byte.of_N c); [|reflexivity].
    rewrite IH.
    destruct (encode_ascii a); [|reflexivity].
    now destruct (encode_ascii b).
Qed.

Lemma encode_ascii_none (s : str) :
  is_ascii s = false -> encode_ascii s = None.
Proof.
  induction s as [|c s IH]; simpl; [discriminate|].
  destruct (c <? 128)%N; simpl; [|reflexivity].
  intros H. rewrite (IH H). now destruct (Byte.of_N c).
Qed.

(** What [encode('ascii')] returns is the text itself, octet by octet, and
    every octet is below 128. *)
Lemma encode_ascii_some (s : str) (b : bytes) :
  encode_ascii s = Some b ->
  List.map Byte.to_N b = s /\ is_ascii s = true.
Proof.
  revert b. induction s as [|c s IH]; simpl; intros b H.
  - injection H as <-. now split.
  - destruct (c <? 128)%N eqn:Hc; [|discriminate].
    destruct (Byte.of_N c) as [x|] eqn:Hx; [|discriminate].
    destruct (encode_ascii s) as [bs|]; [|discriminate].
    injection H as <-. destruct (IH bs eq_refl) as [Hm Ha].
    simpl. rewrite Hm, Ha, (Byte.to_of_N _ Hx). now split.
Qed.

(** A key name with a character above 127 spoils every command built
    around it. *)
Lemma encode_ascii_around (pre key post : str) :
  is_ascii key = false -> encode_ascii (pre ++ key ++ post) = None.
Proof.
  intros H. rewrite !encode_ascii_app, (@encode_ascii_none key H).
  now destruct (encode_ascii pre).
Qed.

(** *** UTF-8 and the newline *)

Section Utf8Newlines.

Local Open Scope N_scope.

Lemma to_N_inj (x y : byte) : Byte.to_N x = Byte.to_N y -> x = y.
Proof.
  intros H. apply (f_equal Byte.of_N) in H.
  rewrite !Byte.of_to_N in H. now injection H.
Qed.

(** A code point assembled from a shifted high part is the newline only if
    the high part is empty. *)
Lemma high_part_of_nl (hi lo k : N) :
  4 <= k -> N.lor (N.shiftl hi k) lo = nl -> hi = 0 /\ N.shiftr lo 4 = 0.
Proof.
  intros Hk H. apply (f_equal (fun n => N.shiftr n 4)) in H.
  rewrite N.shiftr_lor, N.shiftr_shiftl_l in H by exact Hk.
  change (N.shiftr nl 4) with 0 in H.
  apply N.lor_eq_0_iff in H. destruct H as [H1 H2].
  split; [|exact H2].
  now apply N.shiftl_eq_0_iff in H1.
Qed.

Lemma cp2_not_nl (x0 x1 : byte) :
  (Byte.to_N x0 <? 0xC2) = false -> (Byte.to_N x0 <? 0xE0) = true ->
  cp2 (Byte.to_N x0) (Byte.to_N x1) <> nl.
Proof.
  intros H0 H0' H. apply high_part_of_nl in H; [|discriminate].
  destruct H as [H _].
  destruct x0; vm_compute in H0, H0', H;
    first [discriminate H0 | discriminate H0' | discriminate H].
Qed.

Lemma cp3_not_nl (x0 x1 x2 : byte) :
  (Byte.to_N x0 <? 0xE0) = false -> (Byte.to_N x0 <? 0xF0) = true ->
  second_ok (Byte.to_N x0) (Byte.to_N x1) = true ->
  cp3 (Byte.to_N x0) (Byte.to_N x1) (Byte.to_N x2) <> nl.
Proof.
  intros H0 H0' H1 H. apply high_part_of_nl in H; [|discriminate].
  destruct H as [Ha H].
  rewrite N.shiftr_lor, N.shiftr_shiftl_l in H by discriminate.
  apply N.lor_eq_0_iff in H. destruct H as [Hb _].
  apply N.shiftl_eq_0_iff in Hb.
  destruct x0; vm_compute in H0, H0', Ha;
    try first [discriminate H0 | discriminate H0' | discriminate Ha].
  all: destruct x1; vm_compute in H1, Hb;
    first [discriminate H1 | discriminate Hb].
Qed.

Lemma cp4_not_nl (x0 x1 x2 x3 : byte) :
  (Byte.to_N x0 <? 0xF0) = false -> (Byte.to_N x0 <? 0xF5) = true ->
  second_ok (Byte.to_N x0) (Byte.to_N x1) = true ->
  cp4 (Byte.to_N x0) (Byte.to_N x1) (Byte.to_N x2) (Byte.to_N x3) <> nl.
Proof.
  intros H0 H0' H1 H. apply high_part_of_nl in H; [|discriminate].
  destruct H as [Ha H].
  rewrite N.shiftr_lor, N.shiftr_shiftl_l in H by discriminate.
  apply N.lor_eq_0_iff in H. destruct H as [Hb _].
  apply N.shiftl_eq_0_iff in Hb.
  destruct x0; vm_compute in H0, H0', Ha;
    try first [discriminate H0 | discriminate H0' | discriminate Ha].
  all: destruct x1; vm_compute in H1, Hb;
    first [discriminate H1 | discriminate Hb].
Qed.

Lemma high_octet_not_lf (x : byte) :
  (Byte.to_N x <? 0x80) = false -> x <> x0a.
Proof. intros H ->. discriminate H. Qed.

Lemma cont_not_lf (x : byte) : cont (Byte.to_N x) = true -> x <> x0a.
Proof. intros H ->. discriminate H. Qed.

Lemma second_not_lf (x0 x : byte) :
  (Byte.to_N x0 <? 0x80) = false ->
  second_ok (Byte.to_N x0) (Byte.to_N x) = true -> x <> x0a.
Proof.
  intros H0 H ->. unfold second_ok in H.
  repeat match type of H with
         | (if ?c then _ else _) = _ => destruct c
         end; discriminate H.
Qed.

Lemma newlines_cons (c : char) (t : str) :
  c <> nl -> newlines (c :: t) = newlines t.
Proof. intros H. unfold newlines. simpl. now destruct (N.eq_dec c nl). Qed.

Lemma line_feeds_cons (x : byte) (b : bytes) :
  x <> x0a -> line_feeds (x :: b) = line_feeds b.
Proof.
  intros H. unfold line_feeds. simpl.
  now destruct (Byte.byte_eq_dec x x0a).
Qed.

(** Decoding neither creates nor loses a newline: in UTF-8 the octet 0x0A
    stands for U+000A and for nothing else. *)
Lemma decode_utf8_newlines (n : nat) :
  forall (b : bytes) (text : str),
    (List.length b <= n)%nat -> decode_utf8 b = Some text ->
    newlines text = line_feeds b.
Proof.
  induction n as [|n IH]; intros b text Hn Hd.
  - destruct b; [|simpl in Hn; lia]. now injection Hd as <-.
  - destruct b as [|x0 r0]; [now injection Hd as <-|].
    simpl in Hn. cbn [decode_utf8] in Hd. cbv zeta in Hd.
    destruct (Byte.to_N x0 <? 0x80) eqn:H0.
    { destruct (decode_utf8 r0) as [t|] eqn:Hr; [|discriminate Hd].
      injection Hd as <-.
      unfold newlines, line_feeds. simpl.
      fold (newlines t). fold (line_feeds r0).
      rewrite (IH r0 t) by (first [lia|assumption]).
      destruct (N.eq_dec (Byte.to_N x0) nl) as [E|E],
               (Byte.byte_eq_dec x0 x0a) as [E'|E']; try reflexivity.
      - exfalso. apply E'. now apply to_N_inj.
      - exfalso. apply E. now rewrite E'. }
    rewrite line_feeds_cons by (eapply high_octet_not_lf; eassumption).
    destruct (Byte.to_N x0 <? 0xC2) eqn:H1; [discriminate Hd|].
    destruct (Byte.to_N x0 <? 0xE0) eqn:H2.
    { destruct r0 as [|x1 r1]; [discriminate Hd|].
      destruct (cont (Byte.to_N x1)) eqn:C1; [|discriminate Hd].
      destruct (decode_utf8 r1) as [t|] eqn:Hr; [|discriminate Hd].
      injection Hd as <-. simpl in Hn.
      rewrite newlines_cons by now apply cp2_not_nl.
      rewrite line_feeds_cons by (eapply cont_not_lf; eassumption).
      apply IH; [lia|exact Hr]. }
    destruct (Byte.to_N x0 <? 0xF0) eqn:H3.
    { destruct r0 as [|x1 [|x2 r2]]; try discriminate Hd.
      destruct (second_ok (Byte.to_N x0) (Byte.to_N x1)) eqn:C1;
        [|discriminate Hd].
      destruct (cont (Byte.to_N x2)) eqn:C2; [|discriminate Hd].
      destruct (decode_utf8 r2) as [t|] eqn:Hr; [|discriminate Hd].
      injection Hd as <-. simpl in Hn.
      rewrite newlines_cons by now apply cp3_not_nl.
      rewrite line_feeds_cons by (eapply second_not_lf; eassumption).
      rewrite line_feeds_cons by (eapply cont_not_lf; eassumption).
      apply IH; [lia|exact Hr]. }
    destruct (Byte.to_N x0 <? 0xF5) eqn:H4; [|discriminate Hd].
    destruct r0 as [|x1 [|x2 [|x3 r3]]]; try discriminate Hd.
    destruct (second_ok (Byte.to_N x0) (Byte.to_N x1)) eqn:C1;
      [|discriminate Hd].
    destruct (cont (Byte.to_N x2)) eqn:C2; [|discriminate Hd].
    destruct (cont (Byte.to_N x3)) eqn:C3; [|discriminate Hd].
    destruct (decode_utf8 r3) as [t|] eqn:Hr; [|discriminate Hd].
    injection Hd as <-. simpl in Hn.
    rewrite newlines_cons by now apply cp4_not_nl.
    rewrite line_feeds_cons by (eapply second_not_lf; eassumption).
    rewrite line_feeds_cons by (eapply cont_not_lf; eassumption).
    rewrite line_feeds_cons by (eapply cont_not_lf; eassumption).
    apply IH; [lia|exact Hr].
Qed.

(** One more piece than separators. *)
Lemma split_length (sep : char) (s : str) :
  List.length (split sep s) = S (count_occ N.eq_dec s sep).
Proof.
  induction s as [|c s IH]; [reflexivity|].
  simpl. destruct (N.eqb_spec c sep) as [->|Hne].
  - simpl. rewrite IH. now destruct (N.eq_dec sep sep).
  - destruct (split_shape sep s) as [l [ls E]]. rewrite E in *.
    simpl in *. rewrite IH. now destruct (N.eq_dec c sep).
Qed.

End Utf8Newlines.

Arguments lit _ : simpl never.
Arguments blit _ : simpl never.
Arguments basename _ : simpl never.
Arguments script_path _ _ _ : simpl never.
Arguments encode_ascii _ : simpl never.
Arguments decode_utf8 _ : simpl never.
Arguments render _ _ _ _ _ _ : simpl never.
Arguments encode s /.
Arguments decode b /.
Arguments perform {X} c /.
Arguments _format_proc_output header output /.


(* ================================================================= *)
(** ** The output formatter *)

(** On a console that takes every text the deployers are the ones first
    defined: what is proved of those is proved of a run on such a
    console. *)
Lemma print_on_wide (args : list str) (sep end_ : str) :
  Console.print_ wide args sep end_ = print_ args sep end_.
Proof.
  unfold Console.print_, print_.
  replace (forallb wide (Console.chunks args sep end_)) with true;
    [reflexivity|].
  symmetry. apply forallb_forall. reflexivity.
Qed.

Lemma deploy_on_wide
    (str_format : str -> list (str * str) -> str + exn)
    (file_dir : str) (v : variant) (docker_image : str) :
  Console.deploy wide str_format file_dir v docker_image =
  deploy str_format file_dir v docker_image.
Proof. reflexivity. Qed.

Lemma format_on_wide (header : str) (b : bytes) :
  Console._format_proc_output wide header b = _format_proc_output header b.
Proof. reflexivity. Qed.

Arguments Console.print_ stdout args sep end_ /.
Arguments Console.print stdout args /.
Arguments Console._format_proc_output stdout header output /.

(** The four writes of a report put end to end: the header line, one
    indented line per piece of the text, an empty line. *)
Lemma report_text (header text : str) :
  join [nl] [header; Console.indented text] ++ [nl; nl] =
  header ++ [nl] ++
  List.concat (List.map (fun line => lit "    " ++ line ++ [nl])
                        (split nl text)) ++ [nl].
Proof.
  unfold Console.indented. cbn [join].
  rewrite <- !app_assoc. f_equal. cbn [app]. f_equal.
  change [nl; nl] with ([nl] ++ [nl]). rewrite app_assoc. f_equal.
  rewrite (join_terminated [nl] (fun line => lit "    " ++ line))
    by apply split_not_nil.
  reflexivity.
Qed.

(** C4, as the code has it: an empty buffer prints nothing.  A non-empty
    buffer that decodes as UTF-8 to [text] is handed to [print] as the
    header and the indented text; on a console that takes the four writes
    of that [print] the header line comes out, then one
    newline-terminated line per element of [text.split('\n')], each made
    of four spaces followed by that element, then one empty line.  The
    pieces contain no newline, so these are exactly [len (split nl text)]
    indented lines, one more than there are line feeds in the buffer.  On
    a console that refuses one of the writes only the writes before it
    come out, and UnicodeEncodeError is raised; a buffer that is not
    UTF-8 prints nothing at all. *)
Theorem format_proc_output_report
    (stdout : console) (w : env) (h : list event) (header : str)
    (b : bytes) :
  (b = [] ->
   run w h (Console._format_proc_output stdout header b) = (h, inl tt)) /\
  (b <> [] -> decode_utf8 b = None ->
   run w h (Console._format_proc_output stdout header b)
     = (h, inr UnicodeDecodeError)) /\
  (forall text, b <> [] -> decode_utf8 b = Some text ->
     (forallb stdout [header; [nl]; Console.indented text; [nl; nl]] = true ->
      run w h (Console._format_proc_output stdout header b) =
        (h ++ [Printed
                 (header ++ [nl] ++
                  List.concat
                    (List.map (fun line => lit "    " ++ line ++ [nl])
                              (split nl text)) ++
                  [nl])],
         inl tt)) /\
     (forallb stdout [header; [nl]; Console.indented text; [nl; nl]] = false ->
      run w h (Console._format_proc_output stdout header b) =
        (h ++ match Console.written stdout
                      [header; [nl]; Console.indented text; [nl; nl]] with
              | [] => []
              | done => [Printed (List.concat done)]
              end,
         inr UnicodeEncodeError)) /\
     Forall (fun line => ~ In nl line) (split nl text) /\
     List.length (split nl text) = S (line_feeds b)).
Proof.
  split; [|split].
  - intros ->. reflexivity.
  - intros Hne Hd. destruct b as [|x b]; [contradiction|].
    cbn. now rewrite Hd.
  - intros text Hne Hdec.
    split; [|split; [|split; [apply split_pieces|]]].
    3:{ rewrite split_length. f_equal.
        now apply (decode_utf8_newlines (n:=List.length b)). }
    + intros Hok. destruct b as [|x b]; [contradiction|].
      unfold Console._format_proc_output, decode. rewrite Hdec.
      cbn [bind]. unfold Console.print_.
      change (Console.chunks [header; Console.indented text] [nl] [nl; nl])
        with [header; [nl]; Console.indented text; [nl; nl]].
      rewrite Hok. cbn [run]. now rewrite report_text.
    + intros Hno. destruct b as [|x b]; [contradiction|].
      unfold Console._format_proc_output, decode. rewrite Hdec.
      cbn [bind]. unfold Console.print_.
      change (Console.chunks [header; Console.indented text] [nl] [nl; nl])
        with [header; [nl]; Console.indented text; [nl; nl]].
      rewrite Hno.
      destruct (Console.written stdout _) as [|c cs]; cbn [run].
      * now rewrite app_nil_r.
      * reflexivity.
Qed.

Lemma format_proc_output_report_witness :
  run calm [] (Console._format_proc_output utf8_stdout (lit "Stdout:")
                 (blit "mounted" ++ [x0a]))
  = ([Printed (lit "Stdout:" ++ [nl] ++
               lit "    mounted" ++ [nl] ++ lit "    " ++ [nl] ++ [nl])],
     inl tt) /\
  run calm [] (Console._format_proc_output ascii_stdout (lit "Stderr:")
                 [xe2; x82; xac])
  = ([Printed (lit "Stderr:" ++ [nl])], inr UnicodeEncodeError) /\
  run calm [] (Console._format_proc_output utf8_stdout (lit "Stderr:")
                 [xe2; x82])
  = ([], inr UnicodeDecodeError).
Proof.
  destruct (format_proc_output_report utf8_stdout calm [] (lit "Stdout:")
              (blit "mounted" ++ [x0a])) as (_ & _ & H).
  destruct (H (lit "mounted" ++ [nl])) as (E & _);
    [discriminate|reflexivity|].
  destruct (format_proc_output_report ascii_stdout calm [] (lit "Stderr:")
              [xe2; x82; xac]) as (_ & _ & H').
  destruct (H' [8364%N]) as (_ & E' & _); [discriminate|reflexivity|].
  destruct (format_proc_output_report utf8_stdout calm [] (lit "Stderr:")
              [xe2; x82]) as (_ & E'' & _).
  split; [exact (E eq_refl)|].
  split; [exact (E' eq_refl)|].
  apply E''; [discriminate|reflexivity].
Defined.

(** C4 as stated fails: a non-empty buffer that is not UTF-8 prints neither
    header nor lines, also on a console that takes every text; and on a
    strict ASCII console the UTF-8 buffer of a euro sign prints the header
    line only. *)
Lemma format_proc_output_silent_on_bad_utf8 :
  [xff] <> [] /\
  printed (trace_of calm
             (Console._format_proc_output wide (lit "Stdout:") [xff]))
    = [] /\
  outcome_of calm (Console._format_proc_output wide (lit "Stdout:") [xff])
    = inr UnicodeDecodeError /\
  printed (trace_of calm
             (Console._format_proc_output ascii_stdout (lit "Stderr:")
                [xe2; x82; xac]))
    = [lit "Stderr:" ++ [nl]] /\
  outcome_of calm
    (Console._format_proc_output ascii_stdout (lit "Stderr:")
       [xe2; x82; xac])
    = inr UnicodeEncodeError.
Proof. split; [discriminate|]. repeat split; reflexivity. Qed.

(** C5 as stated fails: the formatter raises on a buffer that is not
    UTF-8 (here a two-octet lead followed by an ASCII octet), also on a
    console that takes every text. *)
Lemma format_proc_output_raises_on_bad_utf8 :
  outcome_of calm
    (Console._format_proc_output wide (lit "Stderr:") [xc3; x28])
    = inr UnicodeDecodeError.
Proof. reflexivity. Qed.

(** C5, as the code has it: the formatter returns normally exactly when
    the buffer is empty, or decodes as UTF-8 and the console takes the
    four writes of the report: the label, the separator, the indented
    text, the terminator.  A non-empty buffer that does not decode raises
    UnicodeDecodeError before anything is printed; a write the console
    refuses raises UnicodeEncodeError. *)
Theorem format_proc_output_returns_iff
    (stdout : console) (w : env) (h : list event) (header : str)
    (b : bytes) :
  (snd (run w h (Console._format_proc_output stdout header b)) = inl tt <->
   reportable stdout header b = true) /\
  (b <> [] -> decode_utf8 b = None ->
   run w h (Console._format_proc_output stdout header b)
     = (h, inr UnicodeDecodeError)) /\
  (forall text, decode_utf8 b = Some text ->
   reportable stdout header b = false ->
   snd (run w h (Console._format_proc_output stdout header b))
     = inr UnicodeEncodeError).
Proof.
  destruct b as [|x b].
  - split; [split; reflexivity|]. split; [now intros H|discriminate].
  - unfold reportable, Console._format_proc_output, decode.
    destruct (decode_utf8 (x :: b)) as [text|] eqn:Hd.
    + cbn [bind]. unfold Console.print_.
      change (Console.chunks [header; Console.indented text] [nl] [nl; nl])
        with [header; [nl]; Console.indented text; [nl; nl]].
      destruct (forallb stdout _) eqn:Hok.
      * split; [split; reflexivity|]. split; discriminate.
      * destruct (Console.written stdout _) as [|c cs]; cbn [run snd].
        all: split; [split; discriminate|].
        all: split; [discriminate|reflexivity].
    + cbn. split; [split; discriminate|].
      split; [reflexivity|discriminate].
Qed.

Lemma format_proc_output_returns_iff_witness :
  snd (run calm [] (Console._format_proc_output utf8_stdout (lit "Stderr:")
                      [xe2; x82; xac]))
    = inl tt /\
  run calm [] (Console._format_proc_output utf8_stdout (lit "Stderr:")
                 [xe2; x82])
    = ([], inr UnicodeDecodeError) /\
  snd (run calm [] (Console._format_proc_output utf8_stdout [55296%N]
                      [x78]))
    = inr UnicodeEncodeError.
Proof.
  split; [|split].
  - apply (format_proc_output_returns_iff utf8_stdout calm []
             (lit "Stderr:") [xe2; x82; xac]).
    reflexivity.
  - apply (format_proc_output_returns_iff utf8_stdout calm []
             (lit "Stderr:") [xe2; x82]).
    + discriminate.
    + reflexivity.
  - destruct (format_proc_output_returns_iff utf8_stdout calm [] [55296%N]
                [x78]) as (_ & _ & H).
    apply (H (lit "x")); reflexivity.
Defined.

(* ================================================================= *)
(** ** Runs of [deploy] *)

Section Runs.

Variable str_format : str -> list (str * str) -> str + exn.
Variable file_dir : str.
Variable docker_image : str.

Local Notation "'deploy_' v" := (deploy str_format file_dir v docker_image)
  (at level 10, v at level 9).

(** C1: in any run of either deployer in which a copy command exits with a
    non-zero status, that command is the last request of the run.  What
    follows it is, in this order: the traceback of the CalledProcessError,
    the line saying that an scp command failed, and the three remediation
    lines, the last of which is [ssh <address>] with the very address the
    copy was sent to.  The run ends with SystemExit(1), which nothing
    catches, so the process exits with status 1, and the session was never
    asked for. *)
Theorem failed_transfer_aborts (v : variant) (w : env) :
  existsb transfer_failed (trace_of w (deploy_ v)) = true ->
  exists pre address local_path remote_path status out,
    trace_of w (deploy_ v) =
      pre ++
      [Called master_ssh_login (inl address);
       Called (spawn [lit "scp"; local_path;
                      address ++ lit ":./" ++ remote_path])
              (inl (status, out));
       Traceback (CalledProcessError status
                    [lit "scp"; local_path;
                     address ++ lit ":./" ++ remote_path]);
       Printed (lit "It looks like an scp command failed." ++ [nl]);
       Printed (lit "Make sure you can ssh into the server without prompts."
                ++ [nl]);
       Printed (lit "Please run the following command to try it:" ++ [nl]);
       Printed (lit "ssh " ++ address ++ [nl])] /\
    status <> 0%Z /\
    existsb transfer_failed pre = false /\
    session_events (trace_of w (deploy_ v)) = [] /\
    outcome_of w (deploy_ v) = inr (SystemExit 1) /\
    exit_status (outcome_of w (deploy_ v)) = 1%Z.
Proof.
  run_all.
  all: intros Hf; passed Hf; try discriminate Hf.
  all: split_pairs.
  all: match goal with
       | |- exists _ _ _ _ _ _, ?tr = _ /\ _ =>
           let n := eval cbn in (List.length tr - 7)%nat in
           exists (firstn n tr); cbn [firstn]
       end.
  all: eexists _, _, _, _, _.
  all: split; [reflexivity|].
  all: split; [apply Z.eqb_neq; eassumption|].
  all: split; [passed_goal; reflexivity|].
  all: repeat split; reflexivity.
Qed.

(** C2: in a run of either deployer that returns normally, the dialogue
    with the session is exactly: open; write the ASCII encoding of
    [chmod 600 <key>]; write [eval ssh-agent -s]; write the encoding of
    [ssh-add <key>]; write the encoding of [sh mountShares.sh ~/<key>];
    [communicate] with the input [exit], which sends it, waits for the
    remote process and yields the transcript; close.  Every command ends
    with a newline, [<key>] is the basename of the key path, and no other
    write reaches the session. *)
Theorem successful_run_session (v : variant) (w : env) :
  outcome_of w (deploy_ v) = inl tt ->
  exists key_path key_path' b1 b3 b4 transcript,
    key_paths (trace_of w (deploy_ v)) = [key_path; key_path'] /\
    encode_ascii (lit "chmod 600 " ++ basename key_path ++ [nl]) = Some b1 /\
    encode_ascii (lit "ssh-add " ++ basename key_path ++ [nl]) = Some b3 /\
    encode_ascii (lit "sh mountShares.sh ~/" ++ basename key_path ++ [nl])
      = Some b4 /\
    session_events (trace_of w (deploy_ v)) =
      [Called cluster_ssh_enter (inl tt);
       Called (stdin_write b1) (inl tt);
       Called (stdin_write (blit "eval ssh-agent -s" ++ [x0a])) (inl tt);
       Called (stdin_write b3) (inl tt);
       Called (stdin_write b4) (inl tt);
       Called (communicate (blit "exit" ++ [x0a])) (inl transcript);
       Called cluster_ssh_exit (inl tt)] /\
    session_writes (trace_of w (deploy_ v)) =
      [b1; blit "eval ssh-agent -s" ++ [x0a]; b3; b4].
Proof.
  run_all.
  all: intros Hok; try discriminate Hok.
  all: eexists _, _, _, _, _, _.
  all: split; [reflexivity|].
  all: repeat (split; [eassumption|]).
  all: split; reflexivity.
Qed.

(** C3, as the code has it: in a run that returns normally, the image was
    staged under the name after its last slash, and the launch is asked for
    once, always with the registry helper.  The stand-alone script passes,
    as image reference, the tag the registry helper answered for that name;
    the packaged deployer calls [deploy_container] with the registry helper
    alone and passes no image reference, and never asks for a tag. *)
Theorem registry_launch_arguments (v : variant) (w : env) :
  outcome_of w (deploy_ v) = inl tt ->
  exists name,
    last_item (split slash docker_image) = Some name /\
    staged (trace_of w (deploy_ v)) = [(docker_image, name)] /\
    match v with
    | Package =>
        repo_tags (trace_of w (deploy_ v)) = [] /\
        launches (trace_of w (deploy_ v)) = [(None, Some container_registry)]
    | Standalone =>
        exists tag,
          repo_tags (trace_of w (deploy_ v)) = [(name, tag)] /\
          launches (trace_of w (deploy_ v)) =
            [(Some tag, Some container_registry)]
    end.
Proof.
  destruct v.
  all: run_all.
  all: intros Hok; try discriminate Hok.
  all: eexists; split; [reflexivity|]; split; [reflexivity|].
  all: try (split; reflexivity).
  all: eexists; split; reflexivity.
Qed.

(** C6: every copy command of a run is [scp <local> <address>:./<name>]
    for an address the cluster helper answered.  Whenever the session is
    asked for, what came before is, in this order: the key path is looked
    up; the rendered script is written; the address is looked up and the
    rendered script is copied to [<address>:./]; the address is looked up
    and the companion script is copied to [<address>:./]; the key path and
    the address are looked up and the key file is copied to
    [<address>:./<basename of the key path>].  All three copies exited with
    status 0 and there is no other copy in the run.  The remote name is the
    basename of the first key-path answer, the local path is the second
    answer. *)
Theorem transfers_before_session (v : variant) (w : env) :
  Forall (fun argv =>
            exists address local_path remote_name,
              argv = [lit "scp"; local_path;
                      address ++ lit ":./" ++ remote_name] /\
              In address (logins (trace_of w (deploy_ v))))
         (transfers (trace_of w (deploy_ v))) /\
  (session_requested (trace_of w (deploy_ v)) = true ->
   exists key_path key_path' text a1 a2 a3 o1 o2 o3 opened,
     transfer_steps (trace_of w (deploy_ v)) =
       [Called get_key_path (inl key_path);
        Called (file_write (script_path file_dir v "cifsMount.sh") text)
               (inl tt);
        Called master_ssh_login (inl a1);
        Called (spawn [lit "scp"; script_path file_dir v "cifsMount.sh";
                       a1 ++ lit ":./" ++ []]) (inl (0%Z, o1));
        Called master_ssh_login (inl a2);
        Called (spawn [lit "scp"; script_path file_dir v "mountShares.sh";
                       a2 ++ lit ":./" ++ []]) (inl (0%Z, o2));
        Called get_key_path (inl key_path');
        Called master_ssh_login (inl a3);
        Called (spawn [lit "scp"; key_path';
                       a3 ++ lit ":./" ++ basename key_path])
               (inl (0%Z, o3));
        Called cluster_ssh_enter opened] /\
     transfers (trace_of w (deploy_ v)) =
       [[lit "scp"; script_path file_dir v "cifsMount.sh";
         a1 ++ lit ":./" ++ []];
        [lit "scp"; script_path file_dir v "mountShares.sh";
         a2 ++ lit ":./" ++ []];
        [lit "scp"; key_path'; a3 ++ lit ":./" ++ basename key_path]]).
Proof.
  split.
  - run_all.
    all: cbn.
    all: repeat (constructor;
                 [eexists _, _, _; split; [reflexivity|auto 6]|]).
    all: constructor.
  - run_all.
    all: intros Hs; try discriminate Hs.
    all: split_pairs.
    all: repeat match goal with
                | E : (_ =? 0)%Z = true |- _ => apply Z.eqb_eq in E; subst
                end.
    all: eexists _, _, _, _, _, _, _, _, _, _.
    all: split; reflexivity.
Qed.

(** C7: the name under which the image is staged, at the very start of
    either deployer, is the last element of [docker_image.split('/')]: it
    contains no slash, and either it is the whole reference or the
    reference is some prefix, a slash, and that name. *)
Theorem registry_image_name_last_segment (v : variant) (w : env) :
  exists name staged_ok,
    last_item (split slash docker_image) = Some name /\
    ~ In slash name /\
    (docker_image = name \/ exists pre, docker_image = pre ++ slash :: name) /\
    hd_error (trace_of w (deploy_ v)) =
      Some (Called (setup_image docker_image name) staged_ok) /\
    staged (trace_of w (deploy_ v)) = [(docker_image, name)].
Proof.
  destruct (last_item_split slash docker_image) as (name & Hl & Hf & Hs).
  exists name.
  run_all.
  all: rewrite Hl in *; try discriminate.
  all: match goal with E : Some _ = Some _ |- _ => injection E as <- end.
  all: eexists; repeat (split; [first [eassumption|reflexivity]|]).
  all: reflexivity.
Qed.

(** The file written by a run is a function of what the renderer was given,
    whatever the line separator of the host. *)
Lemma written_by_deploy (v : variant) (w : env) (linesep : str) :
  written linesep [] (trace_of w (deploy_ v)) =
  rendered_files str_format file_dir v (inputs (trace_of w (deploy_ v))).
Proof.
  run_all.
  all: cbn; rewrite ?str_eqb_refl; cbn; rewrite ?join_split.
  all: try reflexivity.
  all: match goal with E : render _ _ _ _ _ _ = _ |- _ => now rewrite E end.
Qed.

(** C8: two runs, on hosts with any two line separators, that were given
    the same template text and the same four values write the same file
    with the same content; that content is the substituted text itself,
    every ['\n'] of it left as it is. *)
Theorem template_rendering_deterministic
    (v : variant) (w1 w2 : env) (linesep1 linesep2 : str) :
  inputs (trace_of w1 (deploy_ v)) = inputs (trace_of w2 (deploy_ v)) ->
  written linesep1 [] (trace_of w1 (deploy_ v)) =
  written linesep2 [] (trace_of w2 (deploy_ v)) /\
  written linesep1 [] (trace_of w1 (deploy_ v)) =
  rendered_files str_format file_dir v (inputs (trace_of w1 (deploy_ v))).
Proof.
  intros Hin. split; [|apply written_by_deploy].
  rewrite !written_by_deploy. now rewrite Hin.
Qed.

(** C9: whatever reaches the session's input is the ASCII encoding of a
    text.  When the basename of the key path has a character above 127, no
    write reaches the session at all: either the run stops before the
    session, or opening it fails, or the session is opened and closed with
    nothing in between and the run ends with UnicodeEncodeError (with the
    exception of the close, should the close itself fail). *)
Theorem session_commands_ascii (v : variant) (w : env) :
  Forall (fun data => exists command, encode_ascii command = Some data)
         (session_writes (trace_of w (deploy_ v))) /\
  forall key_path,
    hd_error (key_paths (trace_of w (deploy_ v))) = Some key_path ->
    is_ascii (basename key_path) = false ->
    session_writes (trace_of w (deploy_ v)) = [] /\
    (session_events (trace_of w (deploy_ v)) = [] \/
     (exists e,
        session_events (trace_of w (deploy_ v)) =
          [Called cluster_ssh_enter (inr e)] /\
        outcome_of w (deploy_ v) = inr e) \/
     (exists closed,
        session_events (trace_of w (deploy_ v)) =
          [Called cluster_ssh_enter (inl tt);
           Called cluster_ssh_exit closed] /\
        outcome_of w (deploy_ v) =
          inr match closed with
              | inl _ => UnicodeEncodeError
              | inr e => e
              end)).
Proof.
  split.
  - run_all.
    all: cbn.
    all: repeat (constructor;
                 [first [ eexists; eassumption
                        | exists (lit "eval ssh-agent -s" ++ [nl]);
                          reflexivity ]|]).
    all: constructor.
  - intros key_path. run_all.
    all: cbn; intros Hk Ha; try discriminate Hk.
    all: injection Hk as ->.
    all: repeat match goal with
                | E : encode_ascii (_ ++ basename _ ++ _) = Some _ |- _ =>
                    rewrite (@encode_ascii_around _ _ _ Ha) in E; discriminate E
                end.
    all: split; [reflexivity|].
    all: first [ left; reflexivity
               | right; left; eexists; split; reflexivity
               | right; right; eexists; split; reflexivity ].
Qed.

(** C10: the basename of the first key-path answer is computed once and is
    the name used wherever a run gets to use it: as the remote name of the
    third copy, and in the commands [chmod 600 <name>], [ssh-add <name>]
    and [sh mountShares.sh ~/<name>].  The copies of a run are the first
    [n] of the three expected and its writes the first [m] of the four
    expected; a run that returns normally has all of them. *)
Theorem key_name_consistent (v : variant) (w : env) :
  forall key_path,
    hd_error (key_paths (trace_of w (deploy_ v))) = Some key_path ->
    exists n m key_path' a1 a2 a3,
      transfers (trace_of w (deploy_ v)) =
        firstn n
          [[lit "scp"; script_path file_dir v "cifsMount.sh";
            a1 ++ lit ":./" ++ []];
           [lit "scp"; script_path file_dir v "mountShares.sh";
            a2 ++ lit ":./" ++ []];
           [lit "scp"; key_path';
            a3 ++ lit ":./" ++ basename key_path]] /\
      List.map Some (session_writes (trace_of w (deploy_ v))) =
        firstn m
          [encode_ascii (lit "chmod 600 " ++ basename key_path ++ [nl]);
           Some (blit "eval ssh-agent -s" ++ [x0a]);
           encode_ascii (lit "ssh-add " ++ basename key_path ++ [nl]);
           encode_ascii
             (lit "sh mountShares.sh ~/" ++ basename key_path ++ [nl])] /\
      (outcome_of w (deploy_ v) <> inl tt \/ (n = 3 /\ m = 4)).
Proof.
  intros key_path. run_all.
  all: intros Hk; cbn in Hk; try discriminate Hk.
  all: injection Hk as ->.
  all: match goal with
       | |- exists _ _ _ _ _ _, ?t = _ /\ List.map _ ?s = _ /\ _ =>
           let n := eval cbn in (List.length t) in
           let m := eval cbn in (List.length s) in
           exists n, m
       end.
  all: cbn.
  all: repeat match goal with
              | E : encode_ascii _ = Some _ |- _ => rewrite E; clear E
              end.
  all: eexists _, _, _, _.
  all: split; [reflexivity|]; split; [reflexivity|].
  all: first [ left; discriminate | right; split; reflexivity ].
  Unshelve.
  all: exact [].
Qed.

End Runs.

Lemma failed_transfer_aborts_witness :
  exists pre address local_path remote_path status out,
    trace_of refused (deploy simple_format sample_dir Standalone sample_image)
    = pre ++
      [Called master_ssh_login (inl address);
       Called (spawn [lit "scp"; local_path;
                      address ++ lit ":./" ++ remote_path])
              (inl (status, out));
       Traceback (CalledProcessError status
                    [lit "scp"; local_path;
                     address ++ lit ":./" ++ remote_path]);
       Printed (lit "It looks like an scp command failed." ++ [nl]);
       Printed (lit "Make sure you can ssh into the server without prompts."
                ++ [nl]);
       Printed (lit "Please run the following command to try it:" ++ [nl]);
       Printed (lit "ssh " ++ address ++ [nl])] /\
    status <> 0%Z /\
    existsb transfer_failed pre = false /\
    session_events
      (trace_of refused
         (deploy simple_format sample_dir Standalone sample_image)) = [] /\
    outcome_of refused
      (deploy simple_format sample_dir Standalone sample_image)
    = inr (SystemExit 1) /\
    exit_status
      (outcome_of refused
         (deploy simple_format sample_dir Standalone sample_image)) = 1%Z.
Proof.
  apply (@failed_transfer_aborts simple_format sample_dir sample_image
           Standalone refused).
  vm_compute. reflexivity.
Defined.

Lemma successful_run_session_witness :
  exists key_path key_path' b1 b3 b4 transcript,
    key_paths
      (trace_of calm (deploy simple_format sample_dir Package sample_image))
    = [key_path; key_path'] /\
    encode_ascii (lit "chmod 600 " ++ basename key_path ++ [nl]) = Some b1 /\
    encode_ascii (lit "ssh-add " ++ basename key_path ++ [nl]) = Some b3 /\
    encode_ascii (lit "sh mountShares.sh ~/" ++ basename key_path ++ [nl])
      = Some b4 /\
    session_events
      (trace_of calm (deploy simple_format sample_dir Package sample_image))
    = [Called cluster_ssh_enter (inl tt);
       Called (stdin_write b1) (inl tt);
       Called (stdin_write (blit "eval ssh-agent -s" ++ [x0a])) (inl tt);
       Called (stdin_write b3) (inl tt);
       Called (stdin_write b4) (inl tt);
       Called (communicate (blit "exit" ++ [x0a])) (inl transcript);
       Called cluster_ssh_exit (inl tt)] /\
    session_writes
      (trace_of calm (deploy simple_format sample_dir Package sample_image))
    = [b1; blit "eval ssh-agent -s" ++ [x0a]; b3; b4].
Proof.
  apply (@successful_run_session simple_format sample_dir sample_image
           Package calm).
  vm_compute. reflexivity.
Defined.

(* ================================================================= *)
(** ** The theorems at work on sample runs *)

(** C3 as stated fails for the packaged deployer: the image is staged, the
    run returns normally, and the one launch request carries the registry
    helper but no image reference of any kind. *)
Lemma package_launch_passes_no_image :
  staged (trace_of calm (deploy simple_format sample_dir Package sample_image))
    = [(sample_image, lit "simple-docker")] /\
  outcome_of calm (deploy simple_format sample_dir Package sample_image)
    = inl tt /\
  launches (trace_of calm (deploy simple_format sample_dir Package sample_image))
    = [(None, Some container_registry)] /\
  ~ exists reference,
      launches
        (trace_of calm (deploy simple_format sample_dir Package sample_image))
      = [(Some reference, Some container_registry)].
Proof.
  repeat split; try reflexivity.
  intros [reference H]. vm_compute in H. discriminate H.
Qed.

Lemma registry_launch_arguments_witness :
  exists name,
    last_item (split slash sample_image) = Some name /\
    staged
      (trace_of calm (deploy simple_format sample_dir Standalone sample_image))
    = [(sample_image, name)] /\
    exists tag,
      repo_tags
        (trace_of calm
           (deploy simple_format sample_dir Standalone sample_image))
      = [(name, tag)] /\
      launches
        (trace_of calm
           (deploy simple_format sample_dir Standalone sample_image))
      = [(Some tag, Some container_registry)].
Proof.
  apply (@registry_launch_arguments simple_format sample_dir sample_image
           Standalone calm).
  vm_compute. reflexivity.
Defined.

(** The deployer without a registry launches the bare image reference. *)
Lemma plain_deploy_launches_bare_image (image : str) (w : env) :
  launches (trace_of w (plain_deploy image)) = [(Some image, None)].
Proof.
  unfold trace_of, plain_deploy. cbn.
  now destruct (w _ _ _).
Qed.

Lemma transfers_before_session_witness :
  exists key_path key_path' text a1 a2 a3 o1 o2 o3 opened,
    transfer_steps
      (trace_of calm (deploy simple_format sample_dir Package sample_image))
    = [Called get_key_path (inl key_path);
       Called (file_write (script_path sample_dir Package "cifsMount.sh") text)
              (inl tt);
       Called master_ssh_login (inl a1);
       Called (spawn [lit "scp"; script_path sample_dir Package "cifsMount.sh";
                      a1 ++ lit ":./" ++ []]) (inl (0%Z, o1));
       Called master_ssh_login (inl a2);
       Called (spawn [lit "scp";
                      script_path sample_dir Package "mountShares.sh";
                      a2 ++ lit ":./" ++ []]) (inl (0%Z, o2));
       Called get_key_path (inl key_path');
       Called master_ssh_login (inl a3);
       Called (spawn [lit "scp"; key_path';
                      a3 ++ lit ":./" ++ basename key_path])
              (inl (0%Z, o3));
       Called cluster_ssh_enter opened] /\
    transfers
      (trace_of calm (deploy simple_format sample_dir Package sample_image))
    = [[lit "scp"; script_path sample_dir Package "cifsMount.sh";
        a1 ++ lit ":./" ++ []];
       [lit "scp"; script_path sample_dir Package "mountShares.sh";
        a2 ++ lit ":./" ++ []];
       [lit "scp"; key_path'; a3 ++ lit ":./" ++ basename key_path]].
Proof.
  apply (proj2 (@transfers_before_session simple_format sample_dir
                  sample_image Package calm)).
  vm_compute. reflexivity.
Defined.

(** Two hosts, one with CRLF line ends and a failing copy command, given
    the same template and values: the same script is written. *)
Lemma template_rendering_deterministic_witness :
  written [13%N; 10%N] []
    (trace_of calm (deploy simple_format sample_dir Package sample_image))
  = written [nl] []
      (trace_of refused (deploy simple_format sample_dir Package sample_image))
  /\
  written [13%N; 10%N] []
    (trace_of calm (deploy simple_format sample_dir Package sample_image))
  = rendered_files simple_format sample_dir Package
      (inputs
         (trace_of calm
            (deploy simple_format sample_dir Package sample_image))).
Proof.
  apply (@template_rendering_deterministic simple_format sample_dir
           sample_image Package calm refused [13%N; 10%N] [nl]).
  vm_compute. reflexivity.
Defined.

Lemma session_commands_ascii_witness :
  session_writes
    (trace_of accented (deploy simple_format sample_dir Package sample_image))
  = [] /\
  (session_events
     (trace_of accented
        (deploy simple_format sample_dir Package sample_image)) = [] \/
   (exists e,
      session_events
        (trace_of accented
           (deploy simple_format sample_dir Package sample_image))
      = [Called cluster_ssh_enter (inr e)] /\
      outcome_of accented
        (deploy simple_format sample_dir Package sample_image) = inr e) \/
   (exists closed,
      session_events
        (trace_of accented
           (deploy simple_format sample_dir Package sample_image))
      = [Called cluster_ssh_enter (inl tt); Called cluster_ssh_exit closed] /\
      outcome_of accented
        (deploy simple_format sample_dir Package sample_image)
      = inr match closed with
            | inl _ => UnicodeEncodeError
            | inr e => e
            end)).
Proof.
  apply (proj2 (@session_commands_ascii simple_format sample_dir sample_image
                  Package accented) id_cle).
  - vm_compute. reflexivity.
  - vm_compute. reflexivity.
Defined.

Lemma key_name_consistent_witness :
  exists n m key_path' a1 a2 a3,
    transfers
      (trace_of calm (deploy simple_format sample_dir Standalone sample_image))
    = firstn n
        [[lit "scp"; script_path sample_dir Standalone "cifsMount.sh";
          a1 ++ lit ":./" ++ []];
         [lit "scp"; script_path sample_dir Standalone "mountShares.sh";
          a2 ++ lit ":./" ++ []];
         [lit "scp"; key_path'; a3 ++ lit ":./" ++ basename id_rsa]] /\
    List.map Some
      (session_writes
         (trace_of calm
            (deploy simple_format sample_dir Standalone sample_image)))
    = firstn m
        [encode_ascii (lit "chmod 600 " ++ basename id_rsa ++ [nl]);
         Some (blit "eval ssh-agent -s" ++ [x0a]);
         encode_ascii (lit "ssh-add " ++ basename id_rsa ++ [nl]);
         encode_ascii (lit "sh mountShares.sh ~/" ++ basename id_rsa ++ [nl])]
    /\
    (outcome_of calm (deploy simple_format sample_dir Standalone sample_image)
       <> inl tt \/ (n = 3 /\ m = 4)).
Proof.
  apply (@key_name_consistent simple_format sample_dir sample_image
           Standalone calm id_rsa).
  vm_compute. reflexivity.
Defined.

(* ================================================================= *)
(** ** The script: running, and the public address *)

Lemma srun_sbind {A B} (w : senv) (p : script A) (f : A -> script B) :
  forall h,
    srun w h (sbind p f) =
    match srun w h p with
    | (h', inl a) => srun w h' (f a)
    | (h', inr e) => (h', inr e)
    end.
Proof.
  induction p as [a|e|ev k IH|X c k IH]; intros h; simpl.
  - reflexivity.
  - reflexivity.
  - apply IH.
  - apply IH.
Qed.

(** A deployer method run inside the script logs what it would log on its
    own, against the world as it is at that point. *)
Lemma srun_lift_from {A} (w : senv) (h : list sevent) (p : prog A) :
  forall hc,
    srun w (h ++ List.map Core hc) (lift p) =
    (h ++ List.map Core (fst (run (core_env w h) hc p)),
     snd (run (core_env w h) hc p)).
Proof.
  induction p as [a|e|ev k IH|X c k IH]; intros hc; simpl.
  - reflexivity.
  - reflexivity.
  - rewrite <- IH, map_app, app_assoc. reflexivity.
  - rewrite <- IH, map_app, app_assoc. reflexivity.
Qed.

Lemma srun_lift {A} (w : senv) (h : list sevent) (p : prog A) :
  srun w h (lift p) =
  (h ++ List.map Core (trace_of (core_env w h) p),
   outcome_of (core_env w h) p).
Proof.
  pose proof (srun_lift_from w h p []) as H.
  simpl in H. rewrite app_nil_r in H. exact H.
Qed.

Lemma core_events_app (a b : list sevent) :
  core_events (a ++ b) = core_events a ++ core_events b.
Proof. apply flat_map_app. Qed.

Lemma core_events_Core (tr : list event) :
  core_events (List.map Core tr) = tr.
Proof.
  induction tr as [|ev tr IH]; [reflexivity|].
  simpl. now rewrite IH.
Qed.

Lemma starts_with_spec (needle s : str) :
  starts_with needle s = true <-> exists post, s = needle ++ post.
Proof.
  revert s. induction needle as [|c needle IH]; intros s; simpl.
  - split; [now exists s|reflexivity].
  - destruct s as [|d s].
    + split; [discriminate|intros [post H]; discriminate H].
    + rewrite andb_true_iff, N.eqb_eq, IH. split.
      * intros [-> [post ->]]. now exists post.
      * intros [post H]. injection H as -> ->. split; [reflexivity|].
        now exists post.
Qed.

(** [contains needle s] is Python's [needle in s]. *)
Lemma contains_spec (needle s : str) :
  contains needle s = true <-> exists pre post, s = pre ++ needle ++ post.
Proof.
  induction s as [|d s IH].
  - simpl. rewrite orb_false_r, starts_with_spec. split.
    + intros [post H]. now exists [], post.
    + intros [pre [post H]]. destruct pre as [|x pre]; [now exists post|].
      discriminate H.
  - change (contains needle (d :: s))
      with (starts_with needle (d :: s) || contains needle s).
    rewrite orb_true_iff, starts_with_spec, IH. split.
    + intros [[post H]|[pre [post H]]].
      * now exists [], post.
      * exists (d :: pre), post. now rewrite H.
    + intros [pre [post H]]. destruct pre as [|x pre].
      * left. now exists post.
      * right. injection H as -> ->. now exists pre, post.
Qed.

Section PublicIp.

Variable lower : str -> str.

(** The loop asks for the properties of the first item whose lowered name
    contains [agent-ip], and of no other. *)
Lemma public_ip_items_run (w : senv) (h : list sevent) :
  forall items,
    srun w h (public_ip_items lower items) =
    match find (is_agent_ip lower) items with
    | None => (h, inl None)
    | Some item =>
        let r := w _ h (inr (get_by_id (item_id item))) in
        (h ++ [Asked (get_by_id (item_id item)) r],
         match r with
         | inl properties =>
             match kw_lookup (lit "ipAddress") properties with
             | Some address => inl (Some address)
             | None => inr (KeyError (lit "ipAddress"))
             end
         | inr e => inr e
         end)
    end.
Proof.
  induction items as [|item items IH]; simpl; [reflexivity|].
  destruct (is_agent_ip lower item); [|exact IH].
  simpl. destruct (w _ h (inr (get_by_id (item_id item)))) as [props|e].
  - simpl. now destruct (kw_lookup (lit "ipAddress") props).
  - reflexivity.
Qed.

(** X1: when no listed resource has [agent-ip] in its lowered name,
    [public_ip] returns [None] and asks for nothing beyond the listing. *)
Theorem public_ip_none (w : senv) (items : list resource) :
  w _ [] (inr list_resources) = inl items ->
  forallb (fun item => negb (is_agent_ip lower item)) items = true ->
  srun w [] (public_ip lower) =
    ([Asked list_resources (inl items)], inl None).
Proof.
  intros Hl Hn. unfold public_ip. rewrite srun_sbind. simpl. rewrite Hl.
  simpl. rewrite public_ip_items_run.
  replace (find (is_agent_ip lower) items) with (@None resource);
    [reflexivity|].
  symmetry. clear Hl. induction items as [|item items IH]; [reflexivity|].
  simpl in *. apply andb_true_iff in Hn. destruct Hn as [H1 H2].
  destruct (is_agent_ip lower item); [discriminate H1|now apply IH].
Qed.

(** X2: [public_ip] returns the [ipAddress] property of the first listed
    resource whose lowered name contains [agent-ip].  It looks up that one
    resource and no other, whatever comes after it in the listing; a
    resource without that property raises KeyError. *)
Theorem public_ip_first_match
    (w : senv) (before after : list resource) (item : resource)
    (properties : list (str * str)) :
  w _ [] (inr list_resources) = inl (before ++ item :: after) ->
  forallb (fun i => negb (is_agent_ip lower i)) before = true ->
  is_agent_ip lower item = true ->
  w _ [Asked list_resources (inl (before ++ item :: after))]
      (inr (get_by_id (item_id item))) = inl properties ->
  srun w [] (public_ip lower) =
    ([Asked list_resources (inl (before ++ item :: after));
      Asked (get_by_id (item_id item)) (inl properties)],
     match kw_lookup (lit "ipAddress") properties with
     | Some address => inl (Some address)
     | None => inr (KeyError (lit "ipAddress"))
     end).
Proof.
  intros Hl Hb Hi Hp. unfold public_ip. rewrite srun_sbind. simpl.
  rewrite Hl. simpl. rewrite public_ip_items_run.
  replace (find (is_agent_ip lower) (before ++ item :: after))
    with (Some item).
  - cbv zeta. rewrite Hp. reflexivity.
  - symmetry. clear Hl Hp. induction before as [|b before IH]; simpl.
    + now rewrite Hi.
    + simpl in Hb. apply andb_true_iff in Hb. destruct Hb as [H1 H2].
      destruct (is_agent_ip lower b); [discriminate H1|now apply IH].
Qed.

End PublicIp.

Lemma public_ip_none_witness :
  srun (azure calm vnet_only sample_properties) [] (public_ip ascii_lower) =
    ([Asked list_resources (inl vnet_only)], inl None).
Proof. apply public_ip_none; reflexivity. Defined.

Lemma public_ip_first_match_witness :
  srun (sample_azure calm) [] (public_ip ascii_lower) =
    ([Asked list_resources (inl sample_items);
      Asked (get_by_id (lit "/r/agent")) (inl sample_properties)],
     inl (Some (lit "52.0.0.7"))).
Proof.
  exact (@public_ip_first_match ascii_lower (sample_azure calm)
           (firstn 1 sample_items) (skipn 2 sample_items)
           {| item_name := lit "dcos-Agent-IP-1234";
              item_id := lit "/r/agent" |}
           sample_properties eq_refl eq_refl eq_refl eq_refl).
Defined.

(** * More about the deployers and the script *)

Section SessionAndFiles.

Variable str_format : str -> list (str * str) -> str + exn.
Variable file_dir : str.
Variable docker_image : str.

Local Notation "'deploy_' v" := (deploy str_format file_dir v docker_image)
  (at level 10, v at level 9).

(** X9: the session with the cluster is scoped in every run of [deploy]:
    either it is never asked for, or entering it fails and nothing else of
    it happens, or it is entered once and left once, with only writes to
    its standard input and the final [communicate] in between.  The
    [with] block leaves it even when a command cannot be encoded. *)
Theorem session_is_scoped (v : variant) (w : env) :
  session_events (trace_of w (deploy_ v)) = [] \/
  (exists e,
     session_events (trace_of w (deploy_ v)) =
       [Called cluster_ssh_enter (inr e)]) \/
  (exists mid closed,
     session_events (trace_of w (deploy_ v)) =
       Called cluster_ssh_enter (inl tt) :: mid ++
       [Called cluster_ssh_exit closed] /\
     forallb is_session_io mid = true).
Proof.
  run_all.
  all: cbn.
  all: first
    [ left; reflexivity
    | right; left; eexists; reflexivity
    | right; right;
      match goal with
      | |- exists _ _, _ :: ?l = _ /\ _ =>
          let m := eval cbn in (removelast l) in
          exists m; eexists; split; reflexivity
      end ].
Qed.

(** X10: the two files of the rendering step are closed on every path:
    whatever fails between opening and closing them (reading, formatting,
    writing), the script file is closed first and the template after it,
    and a template that cannot be opened means the script file is never
    opened. *)
Theorem files_closed_on_every_path (v : variant) (w : env) :
  let src := script_path file_dir v "cifsMountTemplate.sh" in
  let dst := script_path file_dir v "cifsMount.sh" in
  let handles := filter is_open_or_close (trace_of w (deploy_ v)) in
  handles = [] \/
  (exists e, handles = [Called (io_open src mode_r None) (inr e)]) \/
  (exists e closed,
     handles = [Called (io_open src mode_r None) (inl tt);
                Called (io_open dst mode_w (Some [nl])) (inr e);
                Called (file_close src) closed]) \/
  (exists closed closed',
     handles = [Called (io_open src mode_r None) (inl tt);
                Called (io_open dst mode_w (Some [nl])) (inl tt);
                Called (file_close dst) closed;
                Called (file_close src) closed']).
Proof.
  cbv zeta. run_all.
  all: cbn.
  all: first
    [ left; reflexivity
    | right; left; eexists; reflexivity
    | right; right; left; eexists _, _; reflexivity
    | right; right; right; eexists _, _; reflexivity ].
Qed.

End SessionAndFiles.

Section Rendering.

Variable str_format : str -> list (str * str) -> str + exn.
Variable file_dir : str.
Variable docker_image : str.

Local Notation "'deploy_' v" := (deploy str_format file_dir v docker_image)
  (at level 10, v at level 9).

(** X11: no file is copied to the master before the script was rendered:
    in a run with at least one copy command, the template and the four
    values were all obtained, the substitution succeeded, its text was
    written once to [cifsMount.sh], and both files were closed without
    error, the script file before the template. *)
Theorem copy_requires_rendered_script (v : variant) (w : env) :
  transfers (trace_of w (deploy_ v)) <> [] ->
  let src := script_path file_dir v "cifsMountTemplate.sh" in
  let dst := script_path file_dir v "cifsMount.sh" in
  exists template storageacct sharename username password text,
    inputs (trace_of w (deploy_ v)) =
      [inl template; inl storageacct; inl sharename; inl username;
       inl password] /\
    render str_format template storageacct sharename username password
      = inl text /\
    file_events (trace_of w (deploy_ v)) =
      [Called (io_open src mode_r None) (inl tt);
       Called (io_open dst mode_w (Some [nl])) (inl tt);
       Called (file_read src) (inl template);
       Called (file_write dst text) (inl tt);
       Called (file_close dst) (inl tt);
       Called (file_close src) (inl tt)].
Proof.
  cbv zeta. run_all.
  all: cbn; intros Ht; try (now contradiction Ht).
  all: eexists _, _, _, _, _, _.
  all: split; [reflexivity|]; split; [eassumption|reflexivity].
Qed.

(** X12: when the substitution into the template fails (a field the
    template names is not among the four given), [cifsMount.sh] has
    already been opened for writing, so it is left empty; nothing is
    written to it, both files are closed, nothing is copied, no session is
    opened and nothing is launched.  The exception of the substitution
    reaches the caller unless closing a file raised one of its own. *)
Theorem render_failure_leaves_empty_script
    (v : variant) (w : env)
    (template storageacct sharename username password : str) (e : exn) :
  inputs (trace_of w (deploy_ v)) =
    [inl template; inl storageacct; inl sharename; inl username;
     inl password] ->
  render str_format template storageacct sharename username password
    = inr e ->
  let src := script_path file_dir v "cifsMountTemplate.sh" in
  let dst := script_path file_dir v "cifsMount.sh" in
  exists closed closed',
    file_events (trace_of w (deploy_ v)) =
      [Called (io_open src mode_r None) (inl tt);
       Called (io_open dst mode_w (Some [nl])) (inl tt);
       Called (file_read src) (inl template);
       Called (file_close dst) closed;
       Called (file_close src) closed'] /\
    transfers (trace_of w (deploy_ v)) = [] /\
    session_events (trace_of w (deploy_ v)) = [] /\
    launches (trace_of w (deploy_ v)) = [] /\
    outcome_of w (deploy_ v) =
      inr match closed' with
          | inr e' => e'
          | inl _ => match closed with inr e' => e' | inl _ => e end
          end.
Proof.
  cbv zeta. run_all.
  all: cbn; intros Hi Hr; try discriminate Hi.
  all: injection Hi as -> -> -> -> ->.
  all: try match goal with
           | E : render _ _ _ _ _ _ = inl _ |- _ =>
               rewrite Hr in E; discriminate E
           end.
  all: match goal with
       | E : render _ _ _ _ _ _ = inr ?e1 |- _ =>
           tryif constr_eq e1 e then fail
           else (rewrite Hr in E; injection E as <-)
       end.
  all: eexists _, _; repeat split; reflexivity.
Qed.

End Rendering.

Section AfterTheSession.

Variable str_format : str -> list (str * str) -> str + exn.
Variable file_dir : str.
Variable docker_image : str.

Local Notation "'deploy_' v" := (deploy str_format file_dir v docker_image)
  (at level 10, v at level 9).



(** X15: what the operator sees of a run that returns normally: the
    announcement, the mount command for the base name of the key, in the
    package the line that the shares are mounted, then the report of the
    standard output and of the standard error, each only when not
    empty. *)
Theorem console_of_successful_run (v : variant) (w : env) :
  outcome_of w (deploy_ v) = inl tt ->
  exists key_path key_path' out err,
    key_paths (trace_of w (deploy_ v)) = [key_path; key_path'] /\
    transcripts (trace_of w (deploy_ v)) = [(out, err)] /\
    printed (trace_of w (deploy_ v)) =
      [lit "Mounting file share on all machines in cluster..." ++ [nl];
       (lit "Running mountShares on remote master. Cmd:" ++ [nl] ++
        (lit "sh mountShares.sh ~/" ++ basename key_path ++ [nl])) ++ [nl]]
      ++
      match v with
      | Package => [lit "Finished mounting shares." ++ [nl]]
      | Standalone => []
      end ++
      report (lit "Stdout:") out ++ report (lit "Stderr:") err.
Proof.
  destruct v.
  all: run_all.
  all: intros Hok; try discriminate Hok.
  all: split_pairs; subst.
  all: eexists _, _, _, _.
  all: split; [reflexivity|]; split; [reflexivity|].
  all: cbn; unfold report.
  all: repeat match goal with
              | E : decode_utf8 _ = _ |- _ => rewrite E; clear E
              end.
  all: reflexivity.
Qed.

End AfterTheSession.

(** X16: an exception other than CalledProcessError met when starting the copy
    (the program is missing, say) is not handled: it reaches the caller as
    it is, nothing is printed and the process is not made to exit. *)
Theorem scp_other_exception_propagates
    (w : env) (h : list event) (local_path remote_path address : str)
    (e : exn) :
  w _ h master_ssh_login = inl address ->
  w _ (h ++ [Called master_ssh_login (inl address)])
    (spawn [lit "scp"; local_path; address ++ lit ":./" ++ remote_path])
    = inr e ->
  (forall returncode cmd, e <> CalledProcessError returncode cmd) ->
  run w h (scp_to_cluster_master local_path remote_path) =
    (h ++ [Called master_ssh_login (inl address);
           Called (spawn [lit "scp"; local_path;
                          address ++ lit ":./" ++ remote_path]) (inr e)],
     inr e).
Proof.
  intros Hl Hs He. unfold scp_to_cluster_master. cbn.
  rewrite Hl. cbn. rewrite Hs. cbn.
  rewrite <- app_assoc. cbn.
  destruct e; try reflexivity.
  exfalso. now apply (He returncode cmd).
Qed.

Section Basename.

Local Open Scope Z_scope.



End Basename.

Arguments lift {A} p : simpl never.
Arguments trace_of {A} w p : simpl never.
Arguments outcome_of {A} w p : simpl never.
Arguments core_events tr : simpl never.
Arguments listed tr : simpl never.
Arguments looked_up tr : simpl never.
Arguments fetched tr : simpl never.
Arguments responses tr : simpl never.
Arguments properties_seen tr : simpl never.

Lemma flat_map_Core_nil {B} (f : sevent -> list B) (t : list event) :
  (forall e, f (Core e) = []) -> flat_map f (List.map Core t) = [].
Proof.
  intros H. induction t as [|e t IH]; [reflexivity|].
  simpl. now rewrite H, IH.
Qed.

Lemma core_events_nil : core_events [] = [].
Proof. reflexivity. Qed.

Lemma core_events_Asked {X} (q : ask X) (r : X + exn) (t : list sevent) :
  core_events (Asked q r :: t) = core_events t.
Proof. reflexivity. Qed.

Lemma core_events_cons (e : event) (t : list sevent) :
  core_events (Core e :: t) = e :: core_events t.
Proof. reflexivity. Qed.

(** Reading the deployers' part of a log built by the script. *)
Ltac read_core :=
  repeat first
    [ rewrite core_events_Asked in *
    | rewrite core_events_cons in *
    | rewrite core_events_app in *
    | rewrite core_events_Core in *
    | rewrite core_events_nil in * ];
  rewrite ?app_nil_r in *.

(** Reading the script's own part. *)
Ltac read_asks :=
  unfold listed, looked_up, fetched, responses, properties_seen;
  cbn [flat_map app];
  rewrite ?flat_map_app;
  rewrite ?flat_map_Core_nil by (intros; reflexivity);
  cbn [flat_map app].

Lemma filter_Core_nil (f : sevent -> bool) (t : list event) :
  (forall e, f (Core e) = false) -> filter f (List.map Core t) = [].
Proof.
  intros H. induction t as [|e t IH]; [reflexivity|].
  simpl. now rewrite H, IH.
Qed.

Lemma existsb_Core_false (f : sevent -> bool) (t : list event) :
  (forall e, f (Core e) = false) -> existsb f (List.map Core t) = false.
Proof.
  intros H. induction t as [|e t IH]; [reflexivity|].
  simpl. now rewrite H, IH.
Qed.

Lemma plain_deploy_trace (image : str) (w : env) :
  trace_of w (plain_deploy image) =
    [Called (deploy_container_from_registry image None)
            (w _ [] (deploy_container_from_registry image None))].
Proof.
  unfold trace_of, plain_deploy. cbn.
  now destruct (w _ _ _).
Qed.

Lemma failed_transfer_raises_exit
    (str_format : str -> list (str * str) -> str + exn)
    (file_dir docker_image : str) (v : variant) (w : env) :
  existsb transfer_failed
    (trace_of w (deploy str_format file_dir v docker_image)) = true ->
  outcome_of w (deploy str_format file_dir v docker_image)
    = inr (SystemExit 1).
Proof.
  run_all.
  all: intros Hf; passed Hf; try discriminate Hf.
  all: reflexivity.
Qed.

Ltac swaiting_on t :=
  lazymatch t with
  | srun _ _ ?p => swaiting_on p
  | sbind ?q _ => swaiting_on q
  | match ?s with inl _ => _ | inr _ => _ end => swaiting_on s
  | match ?s with Some _ => _ | None => _ end => swaiting_on s
  | if ?s then _ else _ => swaiting_on s
  | match ?s with ContainerDeployer => _ | ACRContainerDeployer => _ end =>
      swaiting_on s
  | _ => t
  end.

Ltac is_sanswer s :=
  lazymatch s with
  | ?f ?X ?h ?c =>
      lazymatch type of c with (call _ + ask _)%type => idtac end
  end.

(** One step of the script.  A deployer method is run as a whole, the loop
    of [public_ip] is taken up to its first match. *)
Ltac sexec1 :=
  cbn;
  lazymatch goal with
  | |- (_, _) = _ -> _ => fail
  | |- ?lhs = _ -> _ =>
      let s := swaiting_on lhs in
      lazymatch s with
      | lift ?q =>
          rewrite !srun_sbind, srun_lift;
          let O := fresh "O" in
          destruct (outcome_of _ q) as [[]|?] eqn:O
      | public_ip_items _ _ =>
          rewrite !srun_sbind, public_ip_items_run;
          let F := fresh "F" in
          destruct (find _ _) eqn:F; cbv zeta
      | _ =>
          tryif is_sanswer s
          then (let x := fresh "x" in
                destruct s as [x|?];
                [try (match type of x with unit => destruct x end)|])
          else (let E := fresh "E" in destruct s eqn:E)
      end
  end.

Ltac sexec := repeat sexec1; cbn.

Ltac srun_all :=
  unfold strace_of, soutcome_of;
  match goal with
  | |- context [srun ?w [] ?p] =>
      let tr := fresh "tr" in
      let res := fresh "res" in
      let H := fresh "H" in
      destruct (srun w [] p) as [tr res] eqn:H; revert H
  end;
  unfold main, environ_get, ContainerDeployer_init,
    ACRContainerDeployer_init, public_ip.

Ltac finish_run :=
  let H := fresh "H" in
  intros H; apply pair_equal_spec in H; destruct H as [<- <-];
  unfold fst, snd.

Section Main.

Variable str_format : str -> list (str * str) -> str + exn.
Variable lower : str -> str.
Variable environ : list (str * str).

Local Notation "'main_' c i" := (main str_format lower environ c i)
  (at level 10, c at level 9, i at level 9).



(** X6: when a copy command fails during the deployment, the script ends
    with exit status 1 without asking for the public address or fetching
    any page. *)
Theorem main_exits_on_failed_transfer
    (cls : deployer_class) (image : str) (w : senv) :
  existsb transfer_failed (core_events (strace_of w (main_ cls image)))
    = true ->
  soutcome_of w (main_ cls image) = inr (SystemExit 1) /\
  exit_status (soutcome_of w (main_ cls image)) = 1%Z /\
  listed (strace_of w (main_ cls image)) = [] /\
  looked_up (strace_of w (main_ cls image)) = [] /\
  fetched (strace_of w (main_ cls image)) = [].
Proof.
  srun_all. sexec.
  all: finish_run.
  all: intros Hf.
  all: rewrite ?plain_deploy_trace in *.
  all: read_core.
  all: rewrite ?existsb_app in Hf; cbn in Hf; rewrite ?orb_false_r in Hf.
  all: try discriminate Hf.
  all: apply failed_transfer_raises_exit in Hf.
  all: rewrite Hf in *.
  all: try discriminate.
  all: match goal with O : inr _ = inr _ |- _ => injection O as <- end.
  all: read_asks.
  all: repeat split; reflexivity.
Qed.


(** X7: in a run of the script that returns normally, the page fetched is
    [http://<address>] for the [ipAddress] of the first resource whose
    lowered name contains [agent-ip], and its text is the last thing
    printed.  When no resource matches, nothing is looked up and the page
    fetched is [http://None]. *)
Theorem main_fetches_public_address
    (cls : deployer_class) (image : str) (w : senv) :
  soutcome_of w (main_ cls image) = inl tt ->
  exists items text,
    listed (strace_of w (main_ cls image)) = [items] /\
    responses (strace_of w (main_ cls image)) = [text] /\
    last (printed (core_events (strace_of w (main_ cls image)))) []
      = text ++ [nl] /\
    match find (is_agent_ip lower) items with
    | None =>
        properties_seen (strace_of w (main_ cls image)) = [] /\
        fetched (strace_of w (main_ cls image)) = [lit "http://None"]
    | Some item =>
        exists properties address,
          properties_seen (strace_of w (main_ cls image)) =
            [(item_id item, properties)] /\
          kw_lookup (lit "ipAddress") properties = Some address /\
          fetched (strace_of w (main_ cls image)) =
            [lit "http://" ++ address]
    end.
Proof.
  srun_all. sexec.
  all: finish_run.
  all: intros Hok; try discriminate Hok.
  all: eexists _, _.
  all: split; [read_asks; reflexivity|].
  all: split; [read_asks; reflexivity|].
  all: split;
    [read_core; unfold printed; rewrite flat_map_app; cbn;
     now rewrite last_last|].
  all: match goal with F : find _ _ = _ |- _ => rewrite F end.
  all: try (split; read_asks; reflexivity).
  all: eexists _, _.
  all: split; [read_asks; reflexivity|].
  all: split; [eassumption|read_asks; reflexivity].
Qed.

(** X8: the deployer chosen without [--use-acr] stages no image, copies no
    file, opens no session and builds neither the storage nor the registry
    helper; its one deployment request launches the image as given. *)
Theorem main_plain_deployer_uses_no_registry (image : str) (w : senv) :
  staged (core_events (strace_of w (main_ ContainerDeployer image))) = [] /\
  transfers (core_events (strace_of w (main_ ContainerDeployer image))) = []
  /\
  session_events (core_events (strace_of w (main_ ContainerDeployer image)))
    = [] /\
  (launches (core_events (strace_of w (main_ ContainerDeployer image))) = []
   \/
   launches (core_events (strace_of w (main_ ContainerDeployer image)))
     = [(Some image, None)]) /\
  existsb is_registry_setup (strace_of w (main_ ContainerDeployer image))
    = false.
Proof.
  srun_all. sexec.
  all: finish_run.
  all: rewrite ?plain_deploy_trace.
  all: read_core.
  all: cbn.
  all: repeat split; first [reflexivity | left; reflexivity | right; reflexivity].
Qed.

(** X5: by the time a deployer is put to work, the helpers have been built
    in a fixed order, each from the credentials and the subscription id
    found in the environment, and both providers have been registered,
    for either deployer. *)
Theorem main_builds_helpers_from_environment
    (cls : deployer_class) (image : str) (w : senv) :
  core_events (strace_of w (main_ cls image)) <> [] ->
  exists id sec ten sub,
    kw_lookup (lit "AZURE_CLIENT_ID") environ = Some id /\
    kw_lookup (lit "AZURE_CLIENT_SECRET") environ = Some sec /\
    kw_lookup (lit "AZURE_TENANT_ID") environ = Some ten /\
    kw_lookup (lit "AZURE_SUBSCRIPTION_ID") environ = Some sub /\
    let client_data :=
      {| credentials := ServicePrincipal id sec ten;
         subscription_id := sub |} in
    filter is_setup (strace_of w (main_ cls image)) =
      [Asked (ResourceHelper client_data (lit "South Central US") None)
             (inl tt);
       Asked (providers_register (lit "Microsoft.ContainerRegistry"))
             (inl tt);
       Asked (providers_register (lit "Microsoft.ContainerService"))
             (inl tt);
       Asked (ContainerHelper client_data) (inl tt)] ++
      match cls with
      | ContainerDeployer => []
      | ACRContainerDeployer =>
          [Asked (StorageHelper client_data None) (inl tt);
           Asked (ContainerRegistryHelper client_data None) (inl tt)]
      end.
Proof.
  srun_all. sexec.
  all: finish_run.
  all: intros Hc.
  all: try (exfalso; apply Hc; read_core; reflexivity).
  all: eexists _, _, _, _.
  all: do 4 (split; [reflexivity|]).
  all: cbv zeta; cbn [filter is_setup app].
  all: rewrite ?filter_app.
  all: rewrite ?filter_Core_nil by (intros; reflexivity).
  all: reflexivity.
Qed.

End Main.

Lemma decode_utf8_ascii_cons (x : byte) (bs : bytes) :
  (Byte.to_N x <? 0x80)%N = true ->
  decode_utf8 (x :: bs) = option_map (cons (Byte.to_N x)) (decode_utf8 bs).
Proof.
  intros H. unfold decode_utf8 at 1. fold decode_utf8. cbv zeta.
  now rewrite H.
Qed.

Lemma encode_ascii_cons (c : char) (s : str) :
  encode_ascii (c :: s) =
  if (c <? 128)%N
  then match Byte.of_N c, encode_ascii s with
       | Some x, Some bs => Some (x :: bs)
       | _, _ => None
       end
  else None.
Proof. reflexivity. Qed.

(** X18: what [encode('ascii')] produces, [decode('utf-8')] reads back as
    the same text. *)
Theorem ascii_bytes_decode_back (s : str) (b : bytes) :
  encode_ascii s = Some b -> decode_utf8 b = Some s.
Proof.
  revert b. induction s as [|c s IH]; intros b H.
  - injection H as <-. reflexivity.
  - rewrite encode_ascii_cons in H.
    destruct (c <? 128)%N eqn:Hc; [|discriminate H].
    destruct (Byte.of_N c) as [x|] eqn:Hx; [|discriminate H].
    destruct (encode_ascii s) as [bs|]; [|discriminate H].
    injection H as <-.
    apply Byte.to_of_N in Hx.
    rewrite decode_utf8_ascii_cons by (now rewrite Hx).
    now rewrite Hx, (IH bs eq_refl).
Qed.

(** * Runs on a console *)

(** Symbolic execution of a run on a console: as before, with the tests
    of the console among the tests a program can wait on. *)
Ltac console_waiting_on p :=
  lazymatch p with
  | bind ?q _ => console_waiting_on q
  | try_except ?q _ => console_waiting_on q
  | finally ?q _ => console_waiting_on q
  | match ?s with inl _ => _ | inr _ => _ end => console_waiting_on s
  | match ?s with Some _ => _ | None => _ end => console_waiting_on s
  | if ?s then _ else _ => console_waiting_on s
  | match ?s with nil => _ | cons _ _ => _ end => console_waiting_on s
  | match ?s with Package => _ | Standalone => _ end => console_waiting_on s
  | match ?s with CalledProcessError _ _ => _ | _ => _ end =>
      console_waiting_on s
  | (?a && _)%bool => console_waiting_on a
  | _ => p
  end.

(** What the console said of a text it says again. *)
Ltac console_known :=
  repeat match goal with
         | E : ?stdout ?x = _ |- context [?stdout ?x] =>
             lazymatch type of stdout with console => rewrite !E end
         end.

Ltac console_exec1 :=
  cbn; console_known; cbn;
  lazymatch goal with
  | |- run _ _ ?p = _ -> _ =>
      let s := console_waiting_on p in
      tryif is_answer s
      then (let x := fresh "x" in
            destruct s as [x|?];
            [try (match type of x with unit => destruct x end)|])
      else (let E := fresh "E" in destruct s eqn:E)
  end.

Ltac console_exec := repeat console_exec1; cbn.

Ltac console_run_all :=
  unfold trace_of, outcome_of;
  match goal with
  | |- context [run ?w [] ?p] =>
      let tr := fresh "tr" in
      let res := fresh "res" in
      let H := fresh "H" in
      destruct (run w [] p) as [tr res] eqn:H; revert H
  end;
  unfold Console.deploy, Console.mount_shares,
    Console.scp_to_cluster_master;
  console_exec;
  let H := fresh "H" in
  intros H; apply pair_equal_spec in H; destruct H as [<- <-];
  unfold fst, snd.

Section ConsoleRuns.

Variable stdout : console.
Variable str_format : str -> list (str * str) -> str + exn.
Variable file_dir : str.
Variable docker_image : str.

Local Notation "'deploy_' v" :=
  (Console.deploy stdout str_format file_dir v docker_image)
  (at level 10, v at level 9).

(** Every way a run on a console can go, read for what it copies and for
    what follows the session. *)
Lemma console_run_facts (v : variant) (w : env) :
  (forall argv, In argv (transfers (trace_of w (deploy_ v))) ->
     exists local_path address name,
       argv = [lit "scp"; local_path; address ++ lit ":./" ++ name] /\
       (name = [] \/
        exists key_path rest,
          key_paths (trace_of w (deploy_ v)) = key_path :: rest /\
          name = basename key_path)) /\
  (forall out err,
     transcripts (trace_of w (deploy_ v)) = [(out, err)] ->
     session_closed (trace_of w (deploy_ v)) = true ->
     match v with
     | Package =>
         forallb stdout [lit "Finished mounting shares."; [nl]] = true
     | Standalone => True
     end ->
     reportable stdout (lit "Stdout:") out = true ->
     reportable stdout (lit "Stderr:") err = true ->
     exists name,
       last_item (split slash docker_image) = Some name /\
       match v with
       | Package =>
           launches (trace_of w (deploy_ v))
             = [(None, Some container_registry)]
       | Standalone => tag_requests (trace_of w (deploy_ v)) = [name]
       end).
Proof.
  destruct v.
  all: console_run_all.
  all: split;
    [ cbn; intros argv Hin;
      repeat (destruct Hin as [<-|Hin];
              [eexists _, _, _; split; [reflexivity|];
               first [left; reflexivity
                     |right; eexists _, _; split; reflexivity]|]);
      contradiction Hin
    | cbn; intros out err Ht Hc;
      first
        [ discriminate Ht
        | discriminate Hc
        | injection Ht as ->; unfold fst, snd in *; subst;
          unfold reportable; cbn [forallb];
          repeat match goal with
                 | E : decode_utf8 _ = _ |- _ => rewrite E; clear E
                 end;
          console_known; cbn; intros Hf Ho He;
          first
            [ discriminate Hf
            | discriminate Ho
            | discriminate He
            | eexists; split;
              [first [eassumption|reflexivity]|reflexivity] ] ] ].
Qed.

(** X13: remote failures are not detected.  Once the session has
    returned its transcript and closed, the deployment goes on to the
    launch whatever the transcript says, as long as the reports can be
    printed: each of the two buffers is empty, or is UTF-8 that the
    console takes with its header, and in the package the console takes
    the line that the shares are mounted. *)
Theorem remote_errors_do_not_stop_launch
    (v : variant) (w : env) (out err : bytes) :
  transcripts (trace_of w (deploy_ v)) = [(out, err)] ->
  session_closed (trace_of w (deploy_ v)) = true ->
  match v with
  | Package =>
      forallb stdout [lit "Finished mounting shares."; [nl]] = true
  | Standalone => True
  end ->
  reportable stdout (lit "Stdout:") out = true ->
  reportable stdout (lit "Stderr:") err = true ->
  exists name,
    last_item (split slash docker_image) = Some name /\
    match v with
    | Package =>
        launches (trace_of w (deploy_ v)) = [(None, Some container_registry)]
    | Standalone => tag_requests (trace_of w (deploy_ v)) = [name]
    end.
Proof. apply (proj2 (console_run_facts v w)). Qed.


End ConsoleRuns.

(** * The further properties at work on sample runs *)

Lemma copy_requires_rendered_script_witness :
  transfers (trace_of calm (sample_deploy Package)) <> [] /\
  exists template storageacct sharename username password text,
    inputs (trace_of calm (sample_deploy Package)) =
      [inl template; inl storageacct; inl sharename; inl username;
       inl password] /\
    render simple_format template storageacct sharename username password
      = inl text /\
    file_events (trace_of calm (sample_deploy Package)) =
      [Called (io_open (script_path sample_dir Package "cifsMountTemplate.sh")
                       mode_r None) (inl tt);
       Called (io_open (script_path sample_dir Package "cifsMount.sh")
                       mode_w (Some [nl])) (inl tt);
       Called (file_read (script_path sample_dir Package
                                      "cifsMountTemplate.sh"))
              (inl template);
       Called (file_write (script_path sample_dir Package "cifsMount.sh")
                          text) (inl tt);
       Called (file_close (script_path sample_dir Package "cifsMount.sh"))
              (inl tt);
       Called (file_close (script_path sample_dir Package
                                       "cifsMountTemplate.sh")) (inl tt)].
Proof.
  assert (H : transfers (trace_of calm (sample_deploy Package)) <> [])
    by (vm_compute; discriminate).
  split; [exact H|].
  exact (@copy_requires_rendered_script simple_format sample_dir sample_image
           Package calm H).
Defined.

Lemma render_failure_leaves_empty_script_witness :
  exists closed closed',
    file_events (trace_of stray_field (sample_deploy Standalone)) =
      [Called (io_open (script_path sample_dir Standalone
                                    "cifsMountTemplate.sh") mode_r None)
              (inl tt);
       Called (io_open (script_path sample_dir Standalone "cifsMount.sh")
                       mode_w (Some [nl])) (inl tt);
       Called (file_read (script_path sample_dir Standalone
                                      "cifsMountTemplate.sh"))
              (inl (lit "{sharename} {mountpoint}"));
       Called (file_close (script_path sample_dir Standalone "cifsMount.sh"))
              closed;
       Called (file_close (script_path sample_dir Standalone
                                       "cifsMountTemplate.sh")) closed'] /\
    transfers (trace_of stray_field (sample_deploy Standalone)) = [] /\
    session_events (trace_of stray_field (sample_deploy Standalone)) = [] /\
    launches (trace_of stray_field (sample_deploy Standalone)) = [] /\
    outcome_of stray_field (sample_deploy Standalone) =
      inr match closed' with
          | inr e' => e'
          | inl _ =>
              match closed with
              | inr e' => e'
              | inl _ => KeyError (lit "mountpoint")
              end
          end.
Proof.
  apply (@render_failure_leaves_empty_script simple_format sample_dir
           sample_image Standalone stray_field
           (lit "{sharename} {mountpoint}") (lit "acct1") (lit "share1")
           (lit "user1") (lit "pw1") (KeyError (lit "mountpoint"))).
  - vm_compute. reflexivity.
  - vm_compute. reflexivity.
Defined.


Lemma console_of_successful_run_witness :
  exists key_path key_path' out err,
    key_paths (trace_of calm (sample_deploy Package))
      = [key_path; key_path'] /\
    transcripts (trace_of calm (sample_deploy Package)) = [(out, err)] /\
    printed (trace_of calm (sample_deploy Package)) =
      [lit "Mounting file share on all machines in cluster..." ++ [nl];
       (lit "Running mountShares on remote master. Cmd:" ++ [nl] ++
        (lit "sh mountShares.sh ~/" ++ basename key_path ++ [nl])) ++ [nl]]
      ++ [lit "Finished mounting shares." ++ [nl]]
      ++ report (lit "Stdout:") out ++ report (lit "Stderr:") err.
Proof.
  apply (@console_of_successful_run simple_format sample_dir sample_image
           Package calm).
  vm_compute. reflexivity.
Defined.

Lemma scp_other_exception_propagates_witness :
  run (without_scp calm) []
      (scp_to_cluster_master (lit "scripts/cifsMount.sh")
                             (lit "cifsMount.sh")) =
    ([Called master_ssh_login (inl (lit "azureuser@mgmt.example.net"));
      Called (spawn [lit "scp"; lit "scripts/cifsMount.sh";
                     lit "azureuser@mgmt.example.net" ++ lit ":./" ++
                     lit "cifsMount.sh"])
             (inr (OtherError "FileNotFoundError"))],
     inr (OtherError "FileNotFoundError")).
Proof.
  apply (@scp_other_exception_propagates (without_scp calm) []
           (lit "scripts/cifsMount.sh") (lit "cifsMount.sh")
           (lit "azureuser@mgmt.example.net")
           (OtherError "FileNotFoundError")).
  - reflexivity.
  - reflexivity.
  - intros returncode cmd. discriminate.
Defined.


Lemma main_exits_on_failed_transfer_witness :
  soutcome_of (sample_azure refused)
    (sample_main sample_environ ACRContainerDeployer)
    = inr (SystemExit 1) /\
  exit_status
    (soutcome_of (sample_azure refused)
       (sample_main sample_environ ACRContainerDeployer)) = 1%Z /\
  listed (strace_of (sample_azure refused)
            (sample_main sample_environ ACRContainerDeployer)) = [] /\
  looked_up (strace_of (sample_azure refused)
               (sample_main sample_environ ACRContainerDeployer)) = [] /\
  fetched (strace_of (sample_azure refused)
             (sample_main sample_environ ACRContainerDeployer)) = [].
Proof.
  apply (@main_exits_on_failed_transfer simple_format ascii_lower
           sample_environ ACRContainerDeployer sample_image
           (sample_azure refused)).
  vm_compute. reflexivity.
Defined.

Lemma main_fetches_public_address_witness :
  exists items text,
    listed (strace_of (sample_azure calm)
              (sample_main sample_environ ACRContainerDeployer)) = [items] /\
    responses (strace_of (sample_azure calm)
                 (sample_main sample_environ ACRContainerDeployer))
      = [text] /\
    last (printed (core_events
                     (strace_of (sample_azure calm)
                        (sample_main sample_environ ACRContainerDeployer))))
         [] = text ++ [nl] /\
    match find (is_agent_ip ascii_lower) items with
    | None =>
        properties_seen
          (strace_of (sample_azure calm)
             (sample_main sample_environ ACRContainerDeployer)) = [] /\
        fetched
          (strace_of (sample_azure calm)
             (sample_main sample_environ ACRContainerDeployer))
          = [lit "http://None"]
    | Some item =>
        exists properties address,
          properties_seen
            (strace_of (sample_azure calm)
               (sample_main sample_environ ACRContainerDeployer)) =
            [(item_id item, properties)] /\
          kw_lookup (lit "ipAddress") properties = Some address /\
          fetched
            (strace_of (sample_azure calm)
               (sample_main sample_environ ACRContainerDeployer)) =
            [lit "http://" ++ address]
    end.
Proof.
  apply (@main_fetches_public_address simple_format ascii_lower
           sample_environ ACRContainerDeployer sample_image
           (sample_azure calm)).
  vm_compute. reflexivity.
Defined.

Lemma main_builds_helpers_from_environment_witness :
  exists id sec ten sub,
    kw_lookup (lit "AZURE_CLIENT_ID") sample_environ = Some id /\
    kw_lookup (lit "AZURE_CLIENT_SECRET") sample_environ = Some sec /\
    kw_lookup (lit "AZURE_TENANT_ID") sample_environ = Some ten /\
    kw_lookup (lit "AZURE_SUBSCRIPTION_ID") sample_environ = Some sub /\
    let client_data :=
      {| credentials := ServicePrincipal id sec ten;
         subscription_id := sub |} in
    filter is_setup
      (strace_of (sample_azure calm)
         (sample_main sample_environ ContainerDeployer)) =
      [Asked (ResourceHelper client_data (lit "South Central US") None)
             (inl tt);
       Asked (providers_register (lit "Microsoft.ContainerRegistry"))
             (inl tt);
       Asked (providers_register (lit "Microsoft.ContainerService"))
             (inl tt);
       Asked (ContainerHelper client_data) (inl tt)] ++ [].
Proof.
  apply (@main_builds_helpers_from_environment simple_format ascii_lower
           sample_environ ContainerDeployer sample_image
           (sample_azure calm)).
  vm_compute. discriminate.
Defined.

Lemma ascii_bytes_decode_back_witness :
  decode_utf8 (blit "sh mountShares.sh ~/id_rsa")
    = Some (lit "sh mountShares.sh ~/id_rsa").
Proof.
  apply (@ascii_bytes_decode_back (lit "sh mountShares.sh ~/id_rsa")
           (blit "sh mountShares.sh ~/id_rsa")).
  reflexivity.
Defined.

Lemma remote_errors_do_not_stop_launch_witness :
  exists name,
    last_item (split slash sample_image) = Some name /\
    launches (trace_of unmounted
                (Console.deploy ascii_stdout simple_format sample_dir
                   Package sample_image))
      = [(None, Some container_registry)].
Proof.
  apply (@remote_errors_do_not_stop_launch ascii_stdout simple_format
           sample_dir sample_image Package unmounted [] denied).
  all: vm_compute; reflexivity.
Defined.

